(** * Code Mood Analyzer: the analysis engine and the aggregate reduction

    A shallow embedding of [lib/analyzer.js] ([analyzeCode],
    [determineMood], [generateSuggestions]) and of
    [calculateAggregateMood] from [src/cli.js], followed by the properties
    the specification states about them.

    Numbers.  Every counter of the metrics record is a non-negative
    integer (line counts, match counts), so counters are [N]; the running
    mood score can go below zero and is a [Z].  The three quotients of the
    program (comment ratio, punctuation density, averages) are quotients of
    such integers compared against short decimal constants or rounded with
    [Math.round]; they are modelled as exact rationals [Q].  For counters
    below 2^40, far above the length a JavaScript string can have, the
    correctly rounded IEEE-754 quotient orders against these constants and
    against the half-integers exactly as the rational does, so the
    comparisons and the rounding agree with the doubles.

    Strings.  A JavaScript string is a sequence of UTF-16 code units,
    modelled as [list N]. *)

From Stdlib Require Import List Bool Arith NArith ZArith QArith Qround Lia.
From Stdlib Require Import Ascii String DecimalString.
Import ListNotations.

Local Open Scope N_scope.

(* ===================================================================== *)
(** ** JavaScript primitives used by the program *)
(* ===================================================================== *)

Module JS.

(** A string value: UTF-16 code units. *)
Definition jsstring : Type := list N.

(** An ASCII literal of the source text as a string value. *)
Fixpoint lit (s : string) : jsstring :=
  match s with
  | EmptyString => []
  | String a s' => N_of_ascii a :: lit s'
  end.

(** [x || d] on a non-negative integer: [0] is the only falsy value. *)
Definition orElse (x d : N) : N := if x =? 0 then d else x.

(** White space and line terminators: the code units removed by
    [String.prototype.trim] and matched by [\s]. *)
Definition isSpace (c : N) : bool :=
  (c =? 9) || (c =? 10) || (c =? 11) || (c =? 12) || (c =? 13) ||
  (c =? 32) || (c =? 0xA0) || (c =? 0x1680) ||
  ((0x2000 <=? c) && (c <=? 0x200A)) ||
  (c =? 0x2028) || (c =? 0x2029) || (c =? 0x202F) || (c =? 0x205F) ||
  (c =? 0x3000) || (c =? 0xFEFF).

(** [\w]: ASCII letters, digits and the underscore. *)
Definition isWordChar (c : N) : bool :=
  ((0x41 <=? c) && (c <=? 0x5A)) || ((0x61 <=? c) && (c <=? 0x7A)) ||
  ((0x30 <=? c) && (c <=? 0x39)) || (c =? 0x5F).

Fixpoint dropWhile (p : N -> bool) (s : jsstring) : jsstring :=
  match s with
  | [] => []
  | c :: s' => if p c then dropWhile p s' else s
  end.

Definition trimStart (s : jsstring) : jsstring := dropWhile isSpace s.
Definition trimEnd (s : jsstring) : jsstring := rev (dropWhile isSpace (rev s)).

(** [s.trim()] *)
Definition trim (s : jsstring) : jsstring := trimEnd (trimStart s).

(** [s.startsWith(p)] *)
Fixpoint startsWith (s p : jsstring) {struct p} : bool :=
  match p, s with
  | [], _ => true
  | _ :: _, [] => false
  | a :: p', c :: s' => (c =? a) && startsWith s' p'
  end.

(** [s.includes(sub)] *)
Fixpoint includes (s sub : jsstring) : bool :=
  startsWith s sub
  || match s with
     | [] => false
     | _ :: s' => includes s' sub
     end.

(** [s.split('\n')]: the segments between line feeds; never empty. *)
Fixpoint splitLines (s : jsstring) : list jsstring :=
  match s with
  | [] => [[]]
  | c :: s' =>
      if c =? 10 then [] :: splitLines s'
      else match splitLines s' with
           | l :: ls => (c :: l) :: ls
           | [] => [[c]]
           end
  end.

(** [s.length] *)
Definition strlen (s : jsstring) : N := N.of_nat (List.length s).

(** One code unit under [String.prototype.toLowerCase].  The ASCII capitals
    map to their small letters, KELVIN SIGN (U+212A) to [k] and the dotted
    capital I (U+0130) to [i] followed by U+0307.  Every other code unit
    lower-cases to text without ASCII letters; it is kept as it is, which
    leaves the matches of the ASCII patterns run over the result
    unchanged. *)
Definition lowerUnit (c : N) : jsstring :=
  if (0x41 <=? c) && (c <=? 0x5A) then [c + 32]
  else if c =? 0x212A then [0x6B]
  else if c =? 0x130 then [0x69; 0x307]
  else [c].

Definition toLowerCase (s : jsstring) : jsstring := flat_map lowerUnit s.

(** Canonicalisation of a code unit under the [i] flag (no [u] flag): the
    ASCII small letters become capitals.  No code unit outside ASCII is
    canonicalised to an ASCII one; those are kept as they are, which is
    the same for the ASCII patterns of the program. *)
Definition canonicalize (c : N) : N :=
  if (0x61 <=? c) && (c <=? 0x7A) then c - 32 else c.

(** [Math.round] of a rational: nearest integer, ties towards +infinity. *)
Definition mathRound (q : Q) : Z := Qfloor (q + (1 # 2)).

Definition N2Q (n : N) : Q := inject_Z (Z.of_N n).

Definition Qlt_bool (a b : Q) : bool := negb (Qle_bool b a).

(** *** Regular expressions

    The fragment the program uses: literals, the classes [\s] and [\w],
    greedy repetition of a class, concatenation, alternation and the word
    boundary assertion [\b]. *)
Inductive regex : Type :=
| Empty
| Chr (c : N)
| Class (p : N -> bool)
| StarOf (p : N -> bool)
| Cat (r1 r2 : regex)
| Or (r1 r2 : regex)
| WordBoundary.

Definition isWordOpt (c : option N) : bool :=
  match c with Some x => isWordChar x | None => false end.

Definition chrEq (ignoreCase : bool) (a c : N) : bool :=
  if ignoreCase then canonicalize a =? canonicalize c else a =? c.

(** The backtracking matcher.  [prev] is the code unit before the current
    position (for [\b]), [k] the continuation; the result is the text left
    after the first match found in priority order. *)
Fixpoint rmatch (ignoreCase : bool) (r : regex) (prev : option N)
    (s : jsstring) (k : option N -> jsstring -> option jsstring)
    : option jsstring :=
  match r with
  | Empty => k prev s
  | Chr a =>
      match s with
      | c :: s' => if chrEq ignoreCase a c then k (Some c) s' else None
      | [] => None
      end
  | Class p =>
      match s with
      | c :: s' => if p c then k (Some c) s' else None
      | [] => None
      end
  | StarOf p =>
      (fix star (prev : option N) (s : jsstring) : option jsstring :=
         match s with
         | c :: s' =>
             if p c then
               match star (Some c) s' with
               | Some e => Some e
               | None => k prev s
               end
             else k prev s
         | [] => k prev s
         end) prev s
  | Cat r1 r2 =>
      rmatch ignoreCase r1 prev s
        (fun prev' s' => rmatch ignoreCase r2 prev' s' k)
  | Or r1 r2 =>
      match rmatch ignoreCase r1 prev s k with
      | Some e => Some e
      | None => rmatch ignoreCase r2 prev s k
      end
  | WordBoundary =>
      if xorb (isWordOpt prev) (isWordOpt (hd_error s)) then k prev s
      else None
  end.

(** A match starting exactly at the current position. *)
Definition execAt (ignoreCase : bool) (r : regex) (prev : option N)
    (s : jsstring) : option jsstring :=
  rmatch ignoreCase r prev s (fun _ rest => Some rest).

Fixpoint searchFrom (ignoreCase : bool) (r : regex) (prev : option N)
    (s : jsstring) : bool :=
  match execAt ignoreCase r prev s with
  | Some _ => true
  | None =>
      match s with
      | [] => false
      | c :: s' => searchFrom ignoreCase r (Some c) s'
      end
  end.

(** [r.test(s)] *)
Definition test (ignoreCase : bool) (r : regex) (s : jsstring) : bool :=
  searchFrom ignoreCase r None s.

(** Successive matches of a [g] regex: after a match of length [n] the
    search resumes [n] code units further ([skip] counts the units still
    covered by the last match), one unit further after an empty match. *)
Fixpoint countFrom (ignoreCase : bool) (r : regex) (prev : option N)
    (s : jsstring) (skip : nat) : N :=
  match s with
  | [] =>
      match skip, execAt ignoreCase r prev [] with
      | O, Some _ => 1
      | _, _ => 0
      end
  | c :: s' =>
      match skip with
      | S n => countFrom ignoreCase r (Some c) s' n
      | O =>
          match execAt ignoreCase r prev s with
          | Some rest =>
              1 + countFrom ignoreCase r (Some c) s'
                    (pred (List.length s - List.length rest))
          | None => countFrom ignoreCase r (Some c) s' 0
          end
      end
  end.

(** [(s.match(r) || []).length] for a regex [r] with the [g] flag. *)
Definition matchCount (ignoreCase : bool) (r : regex) (s : jsstring) : N :=
  countFrom ignoreCase r None s 0.

(** The literal text [w] as a regex. *)
Fixpoint word (w : jsstring) : regex :=
  match w with
  | [] => Empty
  | [c] => Chr c
  | c :: w' => Cat (Chr c) (word w')
  end.

Definition plus (p : N -> bool) : regex := Cat (Class p) (StarOf p).
Definition opt (r : regex) : regex := Or r Empty.

(** *** [Object] used as an insertion-ordered dictionary, and [Array.sort] *)

Section Dict.
Context {K V : Type} (eqb : K -> K -> bool).

(** [o[k]] *)
Fixpoint objGet (o : list (K * V)) (k : K) : option V :=
  match o with
  | [] => None
  | (k', v) :: o' => if eqb k k' then Some v else objGet o' k
  end.

(** [o[k] = v]: an existing key keeps its place, a new key goes last. *)
Fixpoint objSet (o : list (K * V)) (k : K) (v : V) : list (K * V) :=
  match o with
  | [] => [(k, v)]
  | (k', v') :: o' =>
      if eqb k k' then (k', v) :: o' else (k', v') :: objSet o' k v
  end.
End Dict.

Section Sort.
Context {A : Type} (cmp : A -> A -> Z).

(** [x], which stood before every element of the sorted [l], is placed
    before the first element it does not have to follow. *)
Fixpoint sortInsert (x : A) (l : list A) : list A :=
  match l with
  | [] => [x]
  | y :: l' => if (cmp x y <=? 0)%Z then x :: l else y :: sortInsert x l'
  end.

(** [l.sort(cmp)]: the stable sort by the comparator [cmp]. *)
Definition arraySort (l : list A) : list A := fold_right sortInsert [] l.
End Sort.

End JS.

(* ===================================================================== *)
(** ** lib/analyzer.js *)
(* ===================================================================== *)

Module Analyzer.
Import JS.

Declare Scope regex_scope.
Delimit Scope regex_scope with re.
Notation "r1 @@ r2" := (Cat r1 r2)
  (at level 41, right associativity) : regex_scope.
Notation "r1 <|> r2" := (Or r1 r2)
  (at level 51, right associativity) : regex_scope.

(** [MOOD_INDICATORS.*.words] *)
Definition positive_words : list jsstring :=
  map lit ["success"; "happy"; "great"; "excellent"; "good"; "nice";
           "awesome"; "perfect"; "wonderful"; "beautiful"; "clean";
           "elegant"]%string.

Definition negative_words : list jsstring :=
  map lit ["hack"; "fixme"; "bug"; "ugly"; "terrible"; "bad"; "broken";
           "deprecated"; "legacy"; "wtf"; "horrible"; "nightmare"]%string.

Definition stress_words : list jsstring :=
  map lit ["urgent"; "asap"; "critical"; "emergency"; "deadline"; "hurry";
           "rush"]%string.

Inductive Mood : Type :=
| ecstatic | happy | content | neutral | stressed | frustrated | sad
| zen | chaotic | mysterious.

Definition Mood_eqb (a b : Mood) : bool :=
  match a, b with
  | ecstatic, ecstatic | happy, happy | content, content
  | neutral, neutral | stressed, stressed | frustrated, frustrated
  | sad, sad | zen, zen | chaotic, chaotic | mysterious, mysterious => true
  | _, _ => false
  end.

(** The property name of a mood, as the source spells it. *)
Definition moodName (m : Mood) : jsstring :=
  lit match m with
      | ecstatic => "ecstatic" | happy => "happy" | content => "content"
      | neutral => "neutral" | stressed => "stressed"
      | frustrated => "frustrated" | sad => "sad" | zen => "zen"
      | chaotic => "chaotic" | mysterious => "mysterious"
      end%string.

Definition MOOD_EMOJIS (m : Mood) : jsstring :=
  match m with
  | ecstatic => [0xD83C; 0xDF89]
  | happy => [0xD83D; 0xDE0A]
  | content => [0xD83D; 0xDE42]
  | neutral => [0xD83D; 0xDE10]
  | stressed => [0xD83D; 0xDE30]
  | frustrated => [0xD83D; 0xDE24]
  | sad => [0xD83D; 0xDE22]
  | zen => [0xD83E; 0xDDD8]
  | chaotic => [0xD83C; 0xDF2A; 0xFE0F]
  | mysterious => [0xD83D; 0xDD2E]
  end.

Definition MOOD_DESCRIPTIONS (m : Mood) : jsstring :=
  lit match m with
      | ecstatic => "This code is absolutely thriving! The developer was clearly in a great mood."
      | happy => "Pleasant vibes here! The code seems well-maintained and loved."
      | content => "Steady and stable. This code is doing its job without complaints."
      | neutral => "Neither happy nor sad. Just code being code."
      | stressed => "Uh oh! This code might be under some pressure. Watch out for deadlines!"
      | frustrated => "Someone was having a rough day. Consider some code therapy."
      | sad => "This code needs a hug. Maybe some refactoring would help?"
      | zen => "Perfectly balanced, as all code should be. Clean, documented, harmonious."
      | chaotic => "Wild and unpredictable! This code lives life on the edge."
      | mysterious => "Enigmatic code that keeps its secrets close. What does it really do?"
      end%string.

(** A number that may still be the initial [Infinity]. *)
Inductive num : Type :=
| Fin (n : N)
| Infinity.

(** [Math.min(a, n)] *)
Definition minNum (a : num) (n : N) : num :=
  match a with
  | Fin m => Fin (N.min m n)
  | Infinity => Fin n
  end.

Record Metrics : Type := mkMetrics {
  filename : jsstring;
  totalLines : N;
  codeLines : N;
  commentLines : N;
  blankLines : N;
  avgLineLength : N;
  longestLine : N;
  shortestNonEmptyLine : num;
  exclamationMarks : N;
  questionMarks : N;
  positiveWords : N;
  negativeWords : N;
  stressWords : N;
  todoCount : N;
  fixmeCount : N;
  hackCount : N;
  functionCount : N;
  variableDeclarations : N;
  nestingDepth : N;
  hasTests : bool
}.

(** [/function\s+\w+|=>\s*{|\bconst\s+\w+\s*=\s*(?:async\s+)?(?:function|\()/] *)
Definition functionRe : regex :=
  (word (lit "function") @@ plus isSpace @@ plus isWordChar
   <|> word (lit "=>") @@ StarOf isSpace @@ Chr 0x7B
   <|> WordBoundary @@ word (lit "const") @@ plus isSpace @@ plus isWordChar
       @@ StarOf isSpace @@ Chr 0x3D @@ StarOf isSpace
       @@ opt (word (lit "async") @@ plus isSpace)
       @@ (word (lit "function") <|> Chr 0x28))%re.

(** [/(?:const|let|var)\s+\w+/] *)
Definition variableRe : regex :=
  ((word (lit "const") <|> word (lit "let") <|> word (lit "var"))
   @@ plus isSpace @@ plus isWordChar)%re.

(** [/(?:describe|it|test|expect|assert)\s*\(/] *)
Definition testsRe : regex :=
  ((word (lit "describe") <|> word (lit "it") <|> word (lit "test")
    <|> word (lit "expect") <|> word (lit "assert"))
   @@ StarOf isSpace @@ Chr 0x28)%re.

(** [new RegExp(`\\b${word}\\b`, 'gi')] *)
Definition wordRe (w : jsstring) : regex :=
  (WordBoundary @@ word w @@ WordBoundary)%re.

(** The state of the line loop of [analyzeCode]: the record under
    construction and the three local variables. *)
Record Loop : Type := mkLoop {
  metrics : Metrics;
  currentDepth : Z;
  maxDepth : Z;
  totalLength : N
}.

Definition initialMetrics (filename : jsstring) (lines : list jsstring)
    : Metrics :=
  {| filename := filename;
     totalLines := N.of_nat (List.length lines);
     codeLines := 0; commentLines := 0; blankLines := 0;
     avgLineLength := 0; longestLine := 0;
     shortestNonEmptyLine := Infinity;
     exclamationMarks := 0; questionMarks := 0;
     positiveWords := 0; negativeWords := 0; stressWords := 0;
     todoCount := 0; fixmeCount := 0; hackCount := 0;
     functionCount := 0; variableDeclarations := 0;
     nestingDepth := 0; hasTests := false |}.

(** One iteration of [for (const line of lines)]. *)
Definition loopBody (st : Loop) (line : jsstring) : Loop :=
  let m := metrics st in
  let trimmed := trim line in
  let isBlank := match trimmed with [] => true | _ => false end in
  let isComment :=
    startsWith trimmed (lit "//") || startsWith trimmed (lit "/*")
    || startsWith trimmed (lit "*") in
  let nonEmpty := 0 <? strlen trimmed in
  let currentDepth1 :=
    (currentDepth st + Z.of_N (matchCount false (Chr 0x7B) line))%Z in
  let currentDepth2 :=
    (currentDepth1 - Z.of_N (matchCount false (Chr 0x7D) line))%Z in
  {| metrics :=
       {| filename := filename m;
          totalLines := totalLines m;
          codeLines :=
            if isBlank then codeLines m
            else if isComment then codeLines m else codeLines m + 1;
          commentLines :=
            if isBlank then commentLines m
            else if isComment then commentLines m + 1 else commentLines m;
          blankLines := if isBlank then blankLines m + 1 else blankLines m;
          avgLineLength := avgLineLength m;
          longestLine :=
            if nonEmpty then N.max (longestLine m) (strlen trimmed)
            else longestLine m;
          shortestNonEmptyLine :=
            if nonEmpty then minNum (shortestNonEmptyLine m) (strlen trimmed)
            else shortestNonEmptyLine m;
          exclamationMarks :=
            exclamationMarks m + matchCount false (Chr 0x21) line;
          questionMarks :=
            questionMarks m + matchCount false (Chr 0x3F) line;
          positiveWords := positiveWords m;
          negativeWords := negativeWords m;
          stressWords := stressWords m;
          todoCount := todoCount m;
          fixmeCount := fixmeCount m;
          hackCount := hackCount m;
          functionCount :=
            if test false functionRe line then functionCount m + 1
            else functionCount m;
          variableDeclarations :=
            if test false variableRe line then variableDeclarations m + 1
            else variableDeclarations m;
          nestingDepth := nestingDepth m;
          hasTests := hasTests m |};
     currentDepth := currentDepth2;
     maxDepth := Z.max (maxDepth st) currentDepth2;
     totalLength :=
       if nonEmpty then totalLength st + strlen trimmed else totalLength st
  |}.

(** The sum over a vocabulary of the whole-word, case-insensitive matches. *)
Definition countWords (words : list jsstring) (code : jsstring) : N :=
  fold_left (fun acc w => acc + matchCount true (wordRe w) code) words 0.

(** [analyzeCode(code, filename)]; [fname] is the [filename] argument
    (['unknown'] when the caller leaves it out). *)
Definition analyzeCode (code fname : jsstring) : Metrics :=
  let lines := splitLines code in
  let st :=
    fold_left loopBody lines
      {| metrics := initialMetrics fname lines;
         currentDepth := 0; maxDepth := 0; totalLength := 0 |} in
  let m := metrics st in
  let nonBlankLines := (Z.of_N (totalLines m) - Z.of_N (blankLines m))%Z in
  let lowerCode := toLowerCase code in
  {| filename := filename m;
     totalLines := totalLines m;
     codeLines := codeLines m;
     commentLines := commentLines m;
     blankLines := blankLines m;
     avgLineLength :=
       if (0 <? nonBlankLines)%Z
       then Z.to_N (mathRound (N2Q (totalLength st) / inject_Z nonBlankLines))
       else 0;
     longestLine := longestLine m;
     shortestNonEmptyLine :=
       match shortestNonEmptyLine m with
       | Infinity => Fin 0
       | Fin n => Fin n
       end;
     exclamationMarks := exclamationMarks m;
     questionMarks := questionMarks m;
     positiveWords := countWords positive_words code;
     negativeWords := countWords negative_words code;
     stressWords := countWords stress_words code;
     todoCount := matchCount false (word (lit "todo")) lowerCode;
     fixmeCount := matchCount false (word (lit "fixme")) lowerCode;
     hackCount := matchCount false (word (lit "hack")) lowerCode;
     functionCount := functionCount m;
     variableDeclarations := variableDeclarations m;
     nestingDepth := Z.to_N (maxDepth st);
     hasTests := test false testsRe code |}.


(** The value returned by [determineMood]. *)
Record MoodResult : Type := mkMoodResult {
  mood : Mood;
  score : Z;
  emoji : jsstring;
  description : jsstring;
  isZen : bool;
  isChaotic : bool;
  isMysterious : bool
}.

Definition determineMood (metrics : Metrics) : MoodResult :=
  let moodScore := 50%Z in
  (* Comment ratio affects zen *)
  let commentRatio :=
    (N2Q (commentLines metrics) / N2Q (orElse (codeLines metrics) 1))%Q in
  let moodScore :=
    if Qle_bool (2 # 10) commentRatio then (moodScore + 15)%Z
    else if Qle_bool (1 # 10) commentRatio then (moodScore + 5)%Z
    else if Qlt_bool commentRatio (5 # 100) then (moodScore - 10)%Z
    else moodScore in
  (* Positive vs negative words *)
  let moodScore := (moodScore + Z.of_N (positiveWords metrics) * 5)%Z in
  let moodScore := (moodScore - Z.of_N (negativeWords metrics) * 8)%Z in
  let moodScore := (moodScore - Z.of_N (stressWords metrics) * 10)%Z in
  (* TODOs and FIXMEs indicate work stress *)
  let moodScore := (moodScore - Z.of_N (todoCount metrics) * 3)%Z in
  let moodScore := (moodScore - Z.of_N (fixmeCount metrics) * 5)%Z in
  let moodScore := (moodScore - Z.of_N (hackCount metrics) * 7)%Z in
  (* Deep nesting is stressful *)
  let moodScore :=
    if 5 <? nestingDepth metrics then (moodScore - 15)%Z
    else if 3 <? nestingDepth metrics then (moodScore - 5)%Z
    else moodScore in
  (* Very long lines suggest frustration *)
  let moodScore :=
    if 150 <? longestLine metrics then (moodScore - 10)%Z
    else if 100 <? longestLine metrics then (moodScore - 5)%Z
    else moodScore in
  (* Excessive punctuation *)
  let punctuationDensity :=
    (N2Q (exclamationMarks metrics + questionMarks metrics)
     / N2Q (orElse (totalLines metrics) 1))%Q in
  let moodScore :=
    if Qlt_bool (5 # 10) punctuationDensity then (moodScore - 15)%Z
    else moodScore in
  (* Tests are positive! *)
  let moodScore :=
    if hasTests metrics then (moodScore + 10)%Z else moodScore in
  (* Determine mood category *)
  let isZen :=
    Qle_bool (15 # 100) commentRatio && (nestingDepth metrics <=? 3)
    && (hackCount metrics =? 0) in
  let isChaotic :=
    (5 <? nestingDepth metrics) || Qlt_bool (3 # 10) punctuationDensity in
  let isMysterious :=
    Qlt_bool commentRatio (2 # 100) && (50 <? totalLines metrics) in
  let mood :=
    if isZen && (60 <=? moodScore)%Z then zen
    else if isChaotic && (moodScore <? 40)%Z then chaotic
    else if isMysterious then mysterious
    else if (80 <=? moodScore)%Z then ecstatic
    else if (65 <=? moodScore)%Z then happy
    else if (55 <=? moodScore)%Z then content
    else if (45 <=? moodScore)%Z then neutral
    else if (35 <=? moodScore)%Z then stressed
    else if (25 <=? moodScore)%Z then frustrated
    else sad in
  {| mood := mood;
     score := Z.max 0 (Z.min 100 moodScore);
     emoji := MOOD_EMOJIS mood;
     description := MOOD_DESCRIPTIONS mood;
     isZen := isZen;
     isChaotic := isChaotic;
     isMysterious := isMysterious |}.

(** A non-negative integer converted to a string by [+]: its decimal
    digits. *)
Definition numberToString (n : N) : jsstring :=
  lit (NilZero.string_of_uint (N.to_uint n)).

(** [a.push(x)] *)
Definition push {A : Type} (a : list A) (x : A) : list A := a ++ [x].

Definition msgComments : jsstring :=
  [0xD83D; 0xDCA1]
  ++ lit " Consider adding more comments to explain your code's intent".
Definition msgNesting : jsstring :=
  [0xD83D; 0xDD04]
  ++ lit " Deep nesting detected! Consider extracting some logic into separate functions".
Definition msgHacks (hackCount : N) : jsstring :=
  ([0xD83D; 0xDD27] ++ lit " You have ") ++ numberToString hackCount
  ++ lit " hack(s) in your code. Time for some cleanup?".
Definition msgTodos : jsstring :=
  [0xD83D; 0xDCDD] ++ lit " Lots of TODOs piling up! Maybe tackle a few today?".
Definition msgLongLines : jsstring :=
  [0xD83D; 0xDCCF]
  ++ lit " Some lines are quite long. Consider breaking them up for readability".
Definition msgZen : jsstring :=
  [0x2728] ++ lit " Your code is in a great state! Keep up the good work".
Definition msgMysterious : jsstring :=
  [0xD83D; 0xDD2E]
  ++ lit " Your code is shrouded in mystery. Future you will thank present you for comments!".
Definition msgTests : jsstring :=
  [0xD83E; 0xDDEA]
  ++ lit " No tests detected! Consider adding some to ensure reliability".

Definition generateSuggestions (metrics : Metrics) (moodResult : MoodResult)
    : list jsstring :=
  let suggestions := [] in
  let suggestions :=
    if Qlt_bool
         (N2Q (commentLines metrics) / N2Q (orElse (codeLines metrics) 1))
         (1 # 10)
    then push suggestions msgComments else suggestions in
  let suggestions :=
    if 4 <? nestingDepth metrics
    then push suggestions msgNesting else suggestions in
  let suggestions :=
    if 0 <? hackCount metrics
    then push suggestions (msgHacks (hackCount metrics)) else suggestions in
  let suggestions :=
    if 3 <? todoCount metrics
    then push suggestions msgTodos else suggestions in
  let suggestions :=
    if 120 <? longestLine metrics
    then push suggestions msgLongLines else suggestions in
  let suggestions :=
    if Mood_eqb (mood moodResult) zen
    then push suggestions msgZen else suggestions in
  let suggestions :=
    if Mood_eqb (mood moodResult) mysterious
    then push suggestions msgMysterious else suggestions in
  let suggestions :=
    if negb (hasTests metrics) && (3 <? functionCount metrics)
    then push suggestions msgTests else suggestions in
  suggestions.

End Analyzer.

(* ===================================================================== *)
(** ** src/cli.js *)
(* ===================================================================== *)

Module Cli.
Import JS.

(** What [analyzeFile] returns for one file. *)
Record FileResult : Type := mkFileResult {
  metrics : Analyzer.Metrics;
  moodResult : Analyzer.MoodResult;
  suggestions : list jsstring
}.

Record Totals : Type := mkTotals {
  totalLines : N;
  codeLines : N;
  commentLines : N;
  positiveWords : N;
  negativeWords : N;
  stressWords : N;
  todoCount : N;
  fixmeCount : N;
  hackCount : N;
  functionCount : N
}.

(** The variables the loop of [calculateAggregateMood] updates.
    [moodCounts] is an object used as a dictionary: its entries are kept in
    the order the keys were first set. *)
Record Acc : Type := mkAcc {
  acc_totals : Totals;
  acc_totalScore : Z;
  acc_moodCounts : list (Analyzer.Mood * N)
}.

(** A quotient that may be [NaN] or infinite ([None]): division by [0]. *)
Definition divide (a : Z) (n : N) : option Q :=
  if n =? 0 then None else Some (inject_Z a / N2Q n)%Q.

Record Aggregate : Type := mkAggregate {
  fileCount : N;
  totals : Totals;
  avgScore : option Z;
  dominantMood : Analyzer.Mood;
  moodCounts : list (Analyzer.Mood * N)
}.

Definition initialAcc : Acc :=
  {| acc_totals :=
       {| totalLines := 0; codeLines := 0; commentLines := 0;
          positiveWords := 0; negativeWords := 0; stressWords := 0;
          todoCount := 0; fixmeCount := 0; hackCount := 0;
          functionCount := 0 |};
     acc_totalScore := 0;
     acc_moodCounts := [] |}.

(** One iteration of [for (const result of results)]. *)
Definition loopBody (acc : Acc) (result : FileResult) : Acc :=
  let t := acc_totals acc in
  let m := metrics result in
  let key := Analyzer.mood (moodResult result) in
  {| acc_totals :=
       {| totalLines := totalLines t + Analyzer.totalLines m;
          codeLines := codeLines t + Analyzer.codeLines m;
          commentLines := commentLines t + Analyzer.commentLines m;
          positiveWords := positiveWords t + Analyzer.positiveWords m;
          negativeWords := negativeWords t + Analyzer.negativeWords m;
          stressWords := stressWords t + Analyzer.stressWords m;
          todoCount := todoCount t + Analyzer.todoCount m;
          fixmeCount := fixmeCount t + Analyzer.fixmeCount m;
          hackCount := hackCount t + Analyzer.hackCount m;
          functionCount := functionCount t + Analyzer.functionCount m |};
     acc_totalScore :=
       (acc_totalScore acc + Analyzer.score (moodResult result))%Z;
     acc_moodCounts :=
       objSet Analyzer.Mood_eqb (acc_moodCounts acc) key
         (match objGet Analyzer.Mood_eqb (acc_moodCounts acc) key with
          | Some c => orElse c 0
          | None => 0
          end + 1) |}.

(** The comparator [(a, b) => b[1] - a[1]]. *)
Definition byCountDesc (a b : Analyzer.Mood * N) : Z :=
  (Z.of_N (snd b) - Z.of_N (snd a))%Z.

(** [calculateAggregateMood(results)]; [None] is the [TypeError] raised by
    [...sort(...)[0][0]] when the sorted array has no first element. *)
Definition calculateAggregateMood (results : list FileResult)
    : option Aggregate :=
  let acc := fold_left loopBody results initialAcc in
  let length := N.of_nat (List.length results) in
  let avgScore := option_map mathRound (divide (acc_totalScore acc) length) in
  match arraySort byCountDesc (acc_moodCounts acc) with
  | [] => None
  | entry :: _ =>
      Some {| fileCount := length;
              totals := acc_totals acc;
              avgScore := avgScore;
              dominantMood := fst entry;
              moodCounts := acc_moodCounts acc |}
  end.

End Cli.

(* ===================================================================== *)
(** ** The specification's wording, as definitions to compare with *)
(* ===================================================================== *)

Module Spec.
Import JS Analyzer.

(** [commentLines / max(codeLines, 1)] *)
Definition commentRatio (commentLines codeLines : N) : Q :=
  (N2Q commentLines / N2Q (N.max codeLines 1))%Q.

(** [(exclamationMarks + questionMarks) / max(totalLines, 1)] *)
Definition punctuationDensity (exclamationMarks questionMarks totalLines : N)
    : Q :=
  (N2Q (exclamationMarks + questionMarks) / N2Q (N.max totalLines 1))%Q.

(** +15 if ratio >= 0.2; else +5 if >= 0.1; else -10 if < 0.05; nothing in
    the band from 0.05 up to 0.1. *)
Definition commentAdjustment (ratio : Q) : Z :=
  if Qle_bool (1 # 5) ratio then 15
  else if Qle_bool (1 # 10) ratio then 5
  else if Qle_bool (1 # 20) ratio then 0
  else (-10).

Definition nestingAdjustment (nestingDepth : N) : Z :=
  if 5 <? nestingDepth then (-15) else if 3 <? nestingDepth then (-5) else 0.

Definition longLineAdjustment (longestLine : N) : Z :=
  if 150 <? longestLine then (-10)
  else if 100 <? longestLine then (-5) else 0.

Definition punctuationAdjustment (density : Q) : Z :=
  if Qle_bool density (1 # 2) then 0 else (-15).

Definition testsAdjustment (hasTests : bool) : Z :=
  if hasTests then 10 else 0.

(** The score before clamping. *)
Definition rawScore (m : Metrics) : Z :=
  (50
   + commentAdjustment (commentRatio (commentLines m) (codeLines m))
   + 5 * Z.of_N (positiveWords m)
   - 8 * Z.of_N (negativeWords m)
   - 10 * Z.of_N (stressWords m)
   - 3 * Z.of_N (todoCount m)
   - 5 * Z.of_N (fixmeCount m)
   - 7 * Z.of_N (hackCount m)
   + nestingAdjustment (nestingDepth m)
   + longLineAdjustment (longestLine m)
   + punctuationAdjustment
       (punctuationDensity (exclamationMarks m) (questionMarks m)
          (totalLines m))
   + testsAdjustment (hasTests m))%Z.

(** Clamping to [[0, 100]]. *)
Definition clamp (x : Z) : Z :=
  if (x <? 0)%Z then 0%Z else if (100 <? x)%Z then 100%Z else x.

(** The three flags, each a function of the fields it names only. *)
Definition isZen (commentLines codeLines nestingDepth hackCount : N) : bool :=
  Qle_bool (15 # 100) (commentRatio commentLines codeLines)
  && (nestingDepth <=? 3) && (hackCount =? 0).

Definition isChaotic
    (nestingDepth exclamationMarks questionMarks totalLines : N) : bool :=
  (5 <? nestingDepth)
  || Qlt_bool (3 # 10)
       (punctuationDensity exclamationMarks questionMarks totalLines).

Definition isMysterious (commentLines codeLines totalLines : N) : bool :=
  Qlt_bool (commentRatio commentLines codeLines) (2 # 100)
  && (50 <? totalLines).

(** The mood by score alone (the fourth rule). *)
Definition moodOfScore (s : Z) : Mood :=
  if (80 <=? s)%Z then ecstatic
  else if (65 <=? s)%Z then happy
  else if (55 <=? s)%Z then content
  else if (45 <=? s)%Z then neutral
  else if (35 <=? s)%Z then stressed
  else if (25 <=? s)%Z then frustrated
  else sad.

(** The priority order: first rule that applies. *)
Definition selectMood (zenFlag chaoticFlag mysteriousFlag : bool) (s : Z)
    : Mood :=
  match zenFlag && (60 <=? s)%Z, chaoticFlag && (s <? 40)%Z, mysteriousFlag
  with
  | true, _, _ => zen
  | false, true, _ => chaotic
  | false, false, true => mysterious
  | false, false, false => moodOfScore s
  end.

(** The three classes of a line. *)
Inductive LineKind : Type := Blank | Comment | Code.

Definition LineKind_eqb (a b : LineKind) : bool :=
  match a, b with
  | Blank, Blank | Comment, Comment | Code, Code => true
  | _, _ => false
  end.

Definition classify (line : jsstring) : LineKind :=
  let trimmed := trim line in
  match trimmed with
  | [] => Blank
  | _ =>
      if startsWith trimmed (lit "//") || startsWith trimmed (lit "/*")
         || startsWith trimmed (lit "*")
      then Comment else Code
  end.

Definition countKind (k : LineKind) (lines : list jsstring) : N :=
  N.of_nat
    (List.length (filter (fun l => LineKind_eqb (classify l) k) lines)).

(** The number of line feeds of a text. *)
Definition lineFeeds (code : jsstring) : N :=
  N.of_nat (List.length (filter (fun c => c =? 10) code)).

(** What the specification asks of every metrics record. *)
Definition validMetrics (m : Metrics) : Prop :=
  1 <= totalLines m
  /\ codeLines m + commentLines m + blankLines m = totalLines m
  /\ shortestNonEmptyLine m <> Infinity
  /\ (blankLines m = totalLines m ->
      avgLineLength m = 0 /\ longestLine m = 0
      /\ shortestNonEmptyLine m = Fin 0).

(** The eight checks of the suggestion generator with their messages, in
    the order of the list. *)
Definition suggestionTable (m : Metrics) (v : MoodResult)
    : list (bool * jsstring) :=
  [ (Qlt_bool (commentRatio (commentLines m) (codeLines m)) (1 # 10),
     msgComments);
    (4 <? nestingDepth m, msgNesting);
    (0 <? hackCount m, msgHacks (hackCount m));
    (3 <? todoCount m, msgTodos);
    (120 <? longestLine m, msgLongLines);
    (Mood_eqb (mood v) zen, msgZen);
    (Mood_eqb (mood v) mysterious, msgMysterious);
    (negb (hasTests m) && (3 <? functionCount m), msgTests) ].

Definition suggestions (m : Metrics) (v : MoodResult) : list jsstring :=
  map snd (filter fst (suggestionTable m v)).

(** The identifiers of the test heuristic as standalone words: the same
    pattern with a word boundary on its left. *)
Definition standaloneTestsRe : regex :=
  (WordBoundary @@ testsRe)%re.

(** The sum of one metric field over the results. *)
Definition sumOf (f : Metrics -> N) (rs : list Cli.FileResult) : N :=
  fold_right (fun r a => f (Cli.metrics r) + a) 0 rs.

Definition scoreSum (rs : list Cli.FileResult) : Z :=
  fold_right (fun r a => (score (Cli.moodResult r) + a)%Z) 0%Z rs.

(** [a / n] rounded to the nearest integer, halves upwards ([0 < n]). *)
Definition roundHalfUp (a n : Z) : Z := ((2 * a + n) / (2 * n))%Z.

Definition moodOf (r : Cli.FileResult) : Mood := mood (Cli.moodResult r).

(** How many results carry the mood [m]. *)
Definition occurrences (m : Mood) (rs : list Cli.FileResult) : N :=
  N.of_nat (List.length (filter (fun r => Mood_eqb (moodOf r) m) rs)).

(** [d] is the label of highest count that is met first in [rs]. *)
Definition firstMostFrequent (d : Mood) (rs : list Cli.FileResult) : Prop :=
  (forall m, occurrences m rs <= occurrences d rs)
  /\ exists pre r post,
       rs = pre ++ r :: post /\ moodOf r = d
       /\ forall x, In x pre -> occurrences (moodOf x) rs < occurrences d rs.

End Spec.

(* ===================================================================== *)
(** ** Concrete inputs used below *)
(* ===================================================================== *)

Module Examples.
Import JS Analyzer.

(** A metrics record with the given counters; the remaining fields are
    those of an empty file. *)
Definition metricsOf
    (totalLines codeLines commentLines nestingDepth : N) : Metrics :=
  {| filename := lit "example.js";
     totalLines := totalLines; codeLines := codeLines;
     commentLines := commentLines; blankLines := 0;
     avgLineLength := 0; longestLine := 0;
     shortestNonEmptyLine := Fin 0;
     exclamationMarks := 0; questionMarks := 0;
     positiveWords := 0; negativeWords := 0; stressWords := 0;
     todoCount := 0; fixmeCount := 0; hackCount := 0;
     functionCount := 0; variableDeclarations := 0;
     nestingDepth := nestingDepth; hasTests := false |}.

(** One hundred lines without a comment, nested six deep. *)
Definition uncommentedDeep : Metrics := metricsOf 100 99 0 6.

(** The same file with shallow nesting. *)
Definition uncommentedShallow : Metrics := metricsOf 100 99 0 3.

(** [uncommentedShallow] under another name and with other values in the
    fields the classifier does not read. *)
Definition uncommentedShallow' : Metrics :=
  {| filename := lit "other.js";
     totalLines := 100; codeLines := 99; commentLines := 0; blankLines := 1;
     avgLineLength := 17; longestLine := 0;
     shortestNonEmptyLine := Fin 3;
     exclamationMarks := 0; questionMarks := 0;
     positiveWords := 0; negativeWords := 0; stressWords := 0;
     todoCount := 0; fixmeCount := 0; hackCount := 0;
     functionCount := 12; variableDeclarations := 40;
     nestingDepth := 3; hasTests := false |}.

Definition verdictOf (m : Mood) (s : Z) : MoodResult :=
  {| mood := m; score := s; emoji := MOOD_EMOJIS m;
     description := MOOD_DESCRIPTIONS m;
     isZen := false; isChaotic := false; isMysterious := false |}.

Definition resultOf (blank : N) (m : Mood) (s : Z) : Cli.FileResult :=
  {| Cli.metrics :=
       {| filename := lit "a.js";
          totalLines := 10; codeLines := 8; commentLines := 1;
          blankLines := blank;
          avgLineLength := 0; longestLine := 0;
          shortestNonEmptyLine := Fin 0;
          exclamationMarks := 0; questionMarks := 0;
          positiveWords := 0; negativeWords := 0; stressWords := 0;
          todoCount := 0; fixmeCount := 0; hackCount := 0;
          functionCount := 1; variableDeclarations := 0;
          nestingDepth := 0; hasTests := false |};
     Cli.moodResult := verdictOf m s;
     Cli.suggestions := [] |}.

(** The metrics objects of the test suite of [determineMood]. *)
Definition testMetrics
    (totalLines codeLines commentLines positiveWords negativeWords
     stressWords todoCount fixmeCount hackCount nestingDepth longestLine
     exclamationMarks questionMarks : N) (hasTests : bool) : Metrics :=
  {| filename := lit "test.js";
     totalLines := totalLines; codeLines := codeLines;
     commentLines := commentLines; blankLines := 0;
     avgLineLength := 0; longestLine := longestLine;
     shortestNonEmptyLine := Fin 0;
     exclamationMarks := exclamationMarks; questionMarks := questionMarks;
     positiveWords := positiveWords; negativeWords := negativeWords;
     stressWords := stressWords;
     todoCount := todoCount; fixmeCount := fixmeCount;
     hackCount := hackCount;
     functionCount := 5; variableDeclarations := 0;
     nestingDepth := nestingDepth; hasTests := hasTests |}.

Definition positiveCode : Metrics :=
  testMetrics 50 40 10 5 0 0 0 0 0 2 80 0 0 true.
Definition negativeCode : Metrics :=
  testMetrics 50 48 2 0 10 5 5 3 3 6 200 20 10 false.
Definition balancedCode : Metrics :=
  testMetrics 100 70 20 2 0 0 0 0 0 2 80 0 0 true.
Definition uncommentedCode : Metrics :=
  testMetrics 100 99 0 0 0 0 0 0 0 3 100 0 0 false.

(** The text of the line-counting test: a comment, a declaration, an empty
    line, a declaration. *)
Definition fourLines : jsstring :=
  lit "// Comment" ++ [10] ++ lit "const x = 1;" ++ [10] ++ [10]
  ++ lit "const y = 2;".

(** The text of the nesting test. *)
Definition nestedIfs : jsstring :=
  lit "function test() {" ++ [10] ++ lit "  if (true) {" ++ [10]
  ++ lit "    if (true) {" ++ [10] ++ lit "      if (true) {" ++ [10]
  ++ lit "        return 1;" ++ [10] ++ lit "      }" ++ [10]
  ++ lit "    }" ++ [10] ++ lit "  }" ++ [10] ++ lit "}".

(** The text of the marker test, with its capitals. *)
Definition markers : jsstring :=
  lit "// HACK: This is ugly code" ++ [10]
  ++ lit "// TODO: FIXME: broken legacy code" ++ [10]
  ++ lit "function terrible() { return 'bad'; }".

(** A text of two lines, both white space: a space, a line feed, a tab. *)
Definition blankText : jsstring := [32; 10; 9].

(** What the analysis of a text gives for one file: its metrics, their
    verdict and the suggestions for both. *)
Definition analysisOf (code fname : jsstring) : Cli.FileResult :=
  let metrics := analyzeCode code fname in
  let moodResult := determineMood metrics in
  {| Cli.metrics := metrics;
     Cli.moodResult := moodResult;
     Cli.suggestions := generateSuggestions metrics moodResult |}.

(** The analyses of the one-line texts [x!] and [x!!]. *)
Definition oneMark : Cli.FileResult := analysisOf (lit "x!") (lit "a.js").
Definition twoMarks : Cli.FileResult := analysisOf (lit "x!!") (lit "a.js").

(** Two results with the scores 70 and 35. *)
Definition twoFiles : list Cli.FileResult :=
  [resultOf 1 happy 70; resultOf 1 stressed 35].

End Examples.

(* ===================================================================== *)
(** ** Properties *)
(* ===================================================================== *)

Import JS Analyzer.

Lemma orElse_max (x : N) : orElse x 1 = N.max x 1.
Proof. unfold orElse. destruct (N.eqb_spec x 0); lia. Qed.

Lemma Qle_bool_left (a b r : Q) :
  (a == b)%Q -> Qle_bool a r = Qle_bool b r.
Proof. intros H. apply Qleb_comp; [exact H | reflexivity]. Qed.

Lemma Qle_bool_right (a b r : Q) :
  (a == b)%Q -> Qle_bool r a = Qle_bool r b.
Proof. intros H. apply Qleb_comp; [reflexivity | exact H]. Qed.

Lemma clamp_max_min (x : Z) : Z.max 0 (Z.min 100 x) = Spec.clamp x.
Proof.
  unfold Spec.clamp.
  destruct (Z.ltb_spec x 0); [lia|].
  destruct (Z.ltb_spec 100 x); lia.
Qed.

(** [determineMood] in the terms of the specification. *)
Lemma determineMood_spec (m : Metrics) :
  determineMood m =
  let zenFlag :=
    Spec.isZen (commentLines m) (codeLines m) (nestingDepth m) (hackCount m) in
  let chaoticFlag :=
    Spec.isChaotic (nestingDepth m) (exclamationMarks m) (questionMarks m)
      (totalLines m) in
  let mysteriousFlag :=
    Spec.isMysterious (commentLines m) (codeLines m) (totalLines m) in
  let md := Spec.selectMood zenFlag chaoticFlag mysteriousFlag
              (Spec.rawScore m) in
  {| mood := md;
     score := Spec.clamp (Spec.rawScore m);
     emoji := MOOD_EMOJIS md;
     description := MOOD_DESCRIPTIONS md;
     isZen := zenFlag;
     isChaotic := chaoticFlag;
     isMysterious := mysteriousFlag |}.
Proof.
  unfold determineMood, Spec.rawScore, Spec.isZen, Spec.isChaotic,
    Spec.isMysterious, Spec.commentRatio, Spec.punctuationDensity.
  rewrite !orElse_max, clamp_max_min.
  set (ratio := (N2Q (commentLines m) / N2Q (N.max (codeLines m) 1))%Q).
  set (density :=
         (N2Q (exclamationMarks m + questionMarks m)
          / N2Q (N.max (totalLines m) 1))%Q).
  cbv zeta.
  unfold Qlt_bool.
  rewrite (Qle_bool_left (2 # 10) (1 # 5) ratio) by reflexivity.
  rewrite (Qle_bool_left (5 # 100) (1 # 20) ratio) by reflexivity.
  rewrite (Qle_bool_right (5 # 10) (1 # 2) density) by reflexivity.
  match goal with
  | |- {| mood := _; score := Spec.clamp ?e; emoji := _; description := _;
          isZen := _; isChaotic := _; isMysterious := _ |} = _ =>
      set (raw := e)
  end.
  assert (Hraw : raw =
    (50 + Spec.commentAdjustment ratio
     + 5 * Z.of_N (positiveWords m) - 8 * Z.of_N (negativeWords m)
     - 10 * Z.of_N (stressWords m) - 3 * Z.of_N (todoCount m)
     - 5 * Z.of_N (fixmeCount m) - 7 * Z.of_N (hackCount m)
     + Spec.nestingAdjustment (nestingDepth m)
     + Spec.longLineAdjustment (longestLine m)
     + Spec.punctuationAdjustment density
     + Spec.testsAdjustment (hasTests m))%Z).
  { subst raw.
    unfold Spec.commentAdjustment, Spec.nestingAdjustment,
      Spec.longLineAdjustment, Spec.punctuationAdjustment,
      Spec.testsAdjustment.
    destruct (Qle_bool (1 # 5) ratio), (Qle_bool (1 # 10) ratio),
      (Qle_bool (1 # 20) ratio), (5 <? nestingDepth m),
      (3 <? nestingDepth m), (150 <? longestLine m),
      (100 <? longestLine m), (Qle_bool density (1 # 2)), (hasTests m);
      cbn [negb]; lia. }
  rewrite <- Hraw. clearbody raw. clear Hraw.
  unfold Spec.selectMood, Spec.moodOfScore.
  destruct (Qle_bool (15 # 100) ratio && (nestingDepth m <=? 3)
            && (hackCount m =? 0));
    destruct ((5 <? nestingDepth m) || negb (Qle_bool density (3 # 10)));
    destruct (negb (Qle_bool (2 # 100) ratio) && (50 <? totalLines m));
    destruct (60 <=? raw)%Z, (raw <? 40)%Z; cbn [andb]; try reflexivity.
Qed.

Lemma clamp_range (x : Z) : (0 <= Spec.clamp x <= 100)%Z.
Proof.
  unfold Spec.clamp.
  destruct (Z.ltb_spec x 0); [lia|].
  destruct (Z.ltb_spec 100 x); lia.
Qed.

(** A comparison of a constant with a quotient of counters is a
    comparison of integers. *)
Lemma Qle_bool_ratio (a : Z) (b : positive) (c k : N) :
  k <> 0 ->
  Qle_bool (a # b) (N2Q c / N2Q k)
  = (a * Z.of_N k <=? Z.pos b * Z.of_N c)%Z.
Proof.
  intros Hk. destruct k as [|p]; [congruence|].
  unfold Qle_bool, N2Q, Qdiv, Qmult, Qinv, inject_Z.
  cbn [Qnum Qden Z.of_N].
  rewrite Pos.mul_1_l, Z.mul_1_r, (Z.mul_comm (Z.of_N c)).
  reflexivity.
Qed.

(** The comment-ratio bands over the integers. *)
Lemma commentAdjustment_bands (c k : N) :
  Spec.commentAdjustment (Spec.commentRatio c k)
  = if N.max k 1 <=? 5 * c then 15%Z
    else if N.max k 1 <=? 10 * c then 5%Z
    else if N.max k 1 <=? 20 * c then 0%Z
    else (-10)%Z.
Proof.
  unfold Spec.commentAdjustment, Spec.commentRatio.
  rewrite !Qle_bool_ratio by lia.
  destruct (N.leb_spec (N.max k 1) (5 * c)),
    (N.leb_spec (N.max k 1) (10 * c)), (N.leb_spec (N.max k 1) (20 * c));
    repeat match goal with
           | |- context [(?x <=? ?y)%Z] => destruct (Z.leb_spec x y)
           end; try reflexivity; lia.
Qed.

(** The band from 0.05 up to 0.1 gets no adjustment; its ends. *)
Lemma commentAdjustment_examples :
  Spec.commentAdjustment (Spec.commentRatio 20 100) = 15%Z
  /\ Spec.commentAdjustment (Spec.commentRatio 19 100) = 5%Z
  /\ Spec.commentAdjustment (Spec.commentRatio 10 100) = 5%Z
  /\ Spec.commentAdjustment (Spec.commentRatio 9 100) = 0%Z
  /\ Spec.commentAdjustment (Spec.commentRatio 5 100) = 0%Z
  /\ Spec.commentAdjustment (Spec.commentRatio 4 100) = (-10)%Z
  /\ Spec.commentAdjustment (Spec.commentRatio 3 0) = 15%Z.
Proof. repeat split. Qed.

(** The four metrics objects of the test suite. *)
Lemma determineMood_tests :
  (mood (determineMood Examples.positiveCode) = zen
   /\ score (determineMood Examples.positiveCode) = 100%Z)
  /\ (mood (determineMood Examples.negativeCode) = chaotic
      /\ score (determineMood Examples.negativeCode) = 0%Z
      /\ Spec.rawScore Examples.negativeCode = (-181)%Z)
  /\ (mood (determineMood Examples.balancedCode) = zen
      /\ isZen (determineMood Examples.balancedCode) = true)
  /\ (mood (determineMood Examples.uncommentedCode) = mysterious
      /\ isMysterious (determineMood Examples.uncommentedCode) = true).
Proof. vm_compute. repeat split. Qed.

(** Clamping the score changes no comparison of the mood selection: the
    thresholds lie within [[0, 100]]. *)
Lemma selectMood_clamp (z c y : bool) (s : Z) :
  Spec.selectMood z c y (Spec.clamp s) = Spec.selectMood z c y s.
Proof.
  unfold Spec.selectMood, Spec.moodOfScore, Spec.clamp.
  destruct (Z.ltb_spec s 0), (Z.ltb_spec 100 s);
    repeat match goal with
           | |- context [(?a <=? ?b)%Z] => destruct (Z.leb_spec a b)
           | |- context [(?a <? ?b)%Z] => destruct (Z.ltb_spec a b)
           end; try lia; reflexivity.
Qed.

(** C1: the score of [determineMood] starts at 50 and accumulates the
    adjustments of the specification (comment-ratio bands, word counts,
    markers, nesting, longest line, punctuation density, tests); the
    reported score is that raw value clamped to [[0, 100]], and the mood
    is selected by comparing the raw, unclamped value. *)
Theorem determineMood_score_accumulation (m : Metrics) :
  score (determineMood m) = Spec.clamp (Spec.rawScore m)
  /\ (0 <= score (determineMood m) <= 100)%Z
  /\ mood (determineMood m)
     = Spec.selectMood (isZen (determineMood m)) (isChaotic (determineMood m))
         (isMysterious (determineMood m)) (Spec.rawScore m).
Proof.
  rewrite determineMood_spec. cbn [score mood isZen isChaotic isMysterious].
  repeat split; try reflexivity; apply clamp_range.
Qed.

(** C2: the mood label follows the priority order zen (flag and raw score
    at least 60), chaotic (flag and raw score below 40), mysterious (flag),
    then the score thresholds 80, 65, 55, 45, 35, 25; the three flags are
    the stated functions of the metrics alone and are returned in the
    verdict. *)
Theorem determineMood_priority_order (m : Metrics) :
  let zenFlag :=
    Spec.isZen (commentLines m) (codeLines m) (nestingDepth m) (hackCount m) in
  let chaoticFlag :=
    Spec.isChaotic (nestingDepth m) (exclamationMarks m) (questionMarks m)
      (totalLines m) in
  let mysteriousFlag :=
    Spec.isMysterious (commentLines m) (codeLines m) (totalLines m) in
  let s := Spec.rawScore m in
  mood (determineMood m) =
    (if zenFlag && (60 <=? s)%Z then zen
     else if chaoticFlag && (s <? 40)%Z then chaotic
     else if mysteriousFlag then mysterious
     else if (80 <=? s)%Z then ecstatic
     else if (65 <=? s)%Z then happy
     else if (55 <=? s)%Z then content
     else if (45 <=? s)%Z then neutral
     else if (35 <=? s)%Z then stressed
     else if (25 <=? s)%Z then frustrated
     else sad)
  /\ isZen (determineMood m) = zenFlag
  /\ isChaotic (determineMood m) = chaoticFlag
  /\ isMysterious (determineMood m) = mysteriousFlag.
Proof.
  rewrite determineMood_spec. cbv zeta.
  cbn [mood isZen isChaotic isMysterious].
  split; [|repeat split].
  unfold Spec.selectMood, Spec.moodOfScore.
  generalize (Spec.isZen (commentLines m) (codeLines m) (nestingDepth m)
                (hackCount m)),
    (Spec.isChaotic (nestingDepth m) (exclamationMarks m) (questionMarks m)
       (totalLines m)),
    (Spec.isMysterious (commentLines m) (codeLines m) (totalLines m)).
  intros [] [] []; cbn [andb];
    destruct (60 <=? Spec.rawScore m)%Z, (Spec.rawScore m <? 40)%Z;
    reflexivity.
Qed.

(** C4, as stated, fails: a file of 100 lines without comments
    (ratio 0 < 0.02, more than 50 lines) nested six deep is [chaotic]. *)
Lemma mysterious_regardless_of_score_fails :
  ~ (forall m : Metrics,
       (Spec.commentRatio (commentLines m) (codeLines m) < 2 # 100)%Q ->
       50 < totalLines m ->
       mood (determineMood m) = mysterious
       /\ isMysterious (determineMood m) = true).
Proof.
  intros H.
  destruct (H Examples.uncommentedDeep) as [Hmood _].
  - reflexivity.
  - reflexivity.
  - vm_compute in Hmood. discriminate Hmood.
Qed.

Lemma Qlt_bool_iff (a b : Q) : Qlt_bool a b = true <-> (a < b)%Q.
Proof.
  unfold Qlt_bool. rewrite negb_true_iff.
  split.
  - intros H. apply Qnot_le_lt. intros Hle.
    apply Qle_bool_iff in Hle. congruence.
  - intros H. destruct (Qle_bool b a) eqn:E; [|reflexivity].
    apply Qle_bool_iff in E. exfalso. exact (Qlt_not_le _ _ H E).
Qed.

(** C4, amended: with a comment ratio below 0.02 and more than 50 lines the
    flag [isMysterious] is set and the mood is [mysterious], unless the file
    is chaotic with a raw score below 40, which makes it [chaotic]. *)
Theorem mysterious_unless_chaotic (m : Metrics) :
  (Spec.commentRatio (commentLines m) (codeLines m) < 2 # 100)%Q ->
  50 < totalLines m ->
  isMysterious (determineMood m) = true
  /\ mood (determineMood m) =
     if isChaotic (determineMood m) && (Spec.rawScore m <? 40)%Z
     then chaotic else mysterious.
Proof.
  intros Hratio Hlines.
  rewrite determineMood_spec. cbv zeta. cbn [mood isChaotic isMysterious].
  assert (Hm : Spec.isMysterious (commentLines m) (codeLines m) (totalLines m)
               = true).
  { unfold Spec.isMysterious. apply andb_true_iff. split.
    - apply Qlt_bool_iff. exact Hratio.
    - apply N.ltb_lt. exact Hlines. }
  assert (Hz : Spec.isZen (commentLines m) (codeLines m) (nestingDepth m)
                 (hackCount m) = false).
  { unfold Spec.isZen.
    destruct (Qle_bool (15 # 100) _) eqn:E; [|reflexivity].
    apply Qle_bool_iff in E. exfalso.
    apply (Qlt_irrefl (15 # 100)).
    apply Qle_lt_trans with (1 := E).
    apply Qlt_trans with (1 := Hratio). reflexivity. }
  split; [exact Hm|].
  unfold Spec.selectMood. rewrite Hm, Hz. cbn [andb].
  destruct (Spec.isChaotic _ _ _ _ && _); reflexivity.
Qed.

Lemma mysterious_unless_chaotic_witness :
  isMysterious (determineMood Examples.uncommentedShallow) = true
  /\ mood (determineMood Examples.uncommentedShallow) =
     if isChaotic (determineMood Examples.uncommentedShallow)
        && (Spec.rawScore Examples.uncommentedShallow <? 40)%Z
     then chaotic else mysterious.
Proof.
  apply (mysterious_unless_chaotic Examples.uncommentedShallow);
    reflexivity.
Defined.

(** C8: [determineMood] reads only the fourteen listed fields: two metrics
    records that agree on them get the same verdict, whatever their
    filename, average and shortest line length, blank lines, function count
    and variable declarations. *)
Theorem determineMood_reads_only (m1 m2 : Metrics) :
  commentLines m1 = commentLines m2 ->
  codeLines m1 = codeLines m2 ->
  positiveWords m1 = positiveWords m2 ->
  negativeWords m1 = negativeWords m2 ->
  stressWords m1 = stressWords m2 ->
  todoCount m1 = todoCount m2 ->
  fixmeCount m1 = fixmeCount m2 ->
  hackCount m1 = hackCount m2 ->
  nestingDepth m1 = nestingDepth m2 ->
  longestLine m1 = longestLine m2 ->
  exclamationMarks m1 = exclamationMarks m2 ->
  questionMarks m1 = questionMarks m2 ->
  totalLines m1 = totalLines m2 ->
  hasTests m1 = hasTests m2 ->
  determineMood m1 = determineMood m2.
Proof.
  destruct m1, m2. cbn [commentLines codeLines positiveWords negativeWords
    stressWords todoCount fixmeCount hackCount nestingDepth longestLine
    exclamationMarks questionMarks totalLines hasTests].
  intros. subst. reflexivity.
Qed.

Lemma determineMood_reads_only_witness :
  filename Examples.uncommentedShallow
    <> filename Examples.uncommentedShallow'
  /\ functionCount Examples.uncommentedShallow
    <> functionCount Examples.uncommentedShallow'
  /\ determineMood Examples.uncommentedShallow
     = determineMood Examples.uncommentedShallow'.
Proof.
  split; [discriminate|]. split; [discriminate|].
  apply (determineMood_reads_only Examples.uncommentedShallow
           Examples.uncommentedShallow'); reflexivity.
Defined.

(** *** The suggestion generator *)

Lemma startsWith_app (p s : jsstring) : startsWith (p ++ s) p = true.
Proof.
  induction p as [|a p IH]; [reflexivity|].
  cbn [app startsWith]. rewrite N.eqb_refl. exact IH.
Qed.

Lemma includes_app (a sub s : jsstring) : includes (a ++ sub ++ s) sub = true.
Proof.
  induction a as [|c a IH].
  - cbn [app]. destruct (sub ++ s) eqn:E; cbn [includes];
      rewrite <- E, startsWith_app; reflexivity.
  - cbn [app includes]. rewrite IH. apply orb_true_r.
Qed.

(** The message about hacks spells out the count. *)
Lemma msgHacks_includes_count (n : N) :
  includes (msgHacks n) (numberToString n) = true.
Proof. unfold msgHacks. apply includes_app. Qed.

(** C6: [generateSuggestions] returns exactly the messages of the eight
    checks whose condition holds, each check on its own, in the order of
    the list: comments (ratio below 0.1), nesting (above 4), hacks (any,
    with the count in the message), TODOs (more than 3), long lines (above
    120), praise for zen, comments for mysterious, tests (none, and more
    than 3 functions). *)
Theorem generateSuggestions_exact (m : Metrics) (v : MoodResult) :
  generateSuggestions m v = Spec.suggestions m v
  /\ includes (msgHacks (hackCount m)) (numberToString (hackCount m)) = true.
Proof.
  split; [|apply msgHacks_includes_count].
  unfold generateSuggestions, Spec.suggestions, Spec.suggestionTable,
    Spec.commentRatio, push.
  rewrite orElse_max.
  destruct (Qlt_bool _ _), (4 <? nestingDepth m), (0 <? hackCount m),
    (3 <? todoCount m), (120 <? longestLine m), (Mood_eqb (mood v) zen),
    (Mood_eqb (mood v) mysterious), (negb (hasTests m) && _);
    reflexivity.
Qed.

Lemma NoDup_snd_unique {A B : Type} (t : list (A * B)) (a a' : A) (b : B) :
  NoDup (map snd t) -> In (a, b) t -> In (a', b) t -> a = a'.
Proof.
  induction t as [|[x y] t IH]; cbn [map snd In]; [tauto|].
  intros Hnd H1 H2. apply NoDup_cons_iff in Hnd. destruct Hnd as [Hnot Hnd].
  destruct H1 as [H1|H1], H2 as [H2|H2].
  - congruence.
  - injection H1 as -> ->. exfalso. apply Hnot.
    apply (in_map snd) in H2. exact H2.
  - injection H2 as -> ->. exfalso. apply Hnot.
    apply (in_map snd) in H1. exact H1.
  - exact (IH Hnd H1 H2).
Qed.

(** The eight messages differ, already in their first two code units. *)
Lemma suggestionTable_NoDup (m : Metrics) (v : MoodResult) :
  NoDup (map snd (Spec.suggestionTable m v)).
Proof.
  unfold Spec.suggestionTable. cbn [map snd].
  repeat (constructor;
          [cbn [In]; intros H;
           repeat (destruct H as [H|H];
                   [apply (f_equal (firstn 2)) in H; vm_compute in H;
                    discriminate H|]);
           exact H|]).
  constructor.
Qed.

(** Each check stands on its own: its message is in the result exactly
    when its condition holds. *)
Lemma generateSuggestions_independent (m : Metrics) (v : MoodResult)
    (c : bool) (msg : jsstring) :
  In (c, msg) (Spec.suggestionTable m v) ->
  (In msg (Spec.suggestions m v) <-> c = true).
Proof.
  intros Hin. unfold Spec.suggestions. rewrite in_map_iff. split.
  - intros ([c' msg'] & Hmsg & Hf). cbn [snd] in Hmsg. subst msg'.
    apply filter_In in Hf. destruct Hf as [Hf Hc]. cbn [fst] in Hc.
    subst c'.
    exact (NoDup_snd_unique _ _ _ _ (suggestionTable_NoDup m v) Hin Hf).
  - intros ->. exists (true, msg). split; [reflexivity|].
    apply filter_In. split; [exact Hin|reflexivity].
Qed.

(** *** The line loop of [analyzeCode] *)

Lemma splitLines_length (code : jsstring) :
  List.length (splitLines code)
  = S (List.length (filter (fun c => c =? 10) code)).
Proof.
  induction code as [|c code IH]; [reflexivity|].
  cbn [splitLines filter]. destruct (c =? 10).
  - cbn [List.length]. rewrite IH. reflexivity.
  - destruct (splitLines code) as [|l ls]; [discriminate IH|].
    cbn [List.length] in *. exact IH.
Qed.

Lemma countKind_cons (k : Spec.LineKind) (l : jsstring) (ls : list jsstring) :
  Spec.countKind k (l :: ls)
  = (if Spec.LineKind_eqb (Spec.classify l) k then 1 else 0)
    + Spec.countKind k ls.
Proof.
  unfold Spec.countKind. cbn [filter].
  destruct (Spec.LineKind_eqb (Spec.classify l) k); cbn [List.length]; lia.
Qed.

Lemma countKind_total (ls : list jsstring) :
  Spec.countKind Spec.Code ls + Spec.countKind Spec.Comment ls
  + Spec.countKind Spec.Blank ls = N.of_nat (List.length ls).
Proof.
  induction ls as [|l ls IH]; [reflexivity|].
  rewrite !countKind_cons. cbn [List.length].
  destruct (Spec.classify l); cbn [Spec.LineKind_eqb]; lia.
Qed.

(** What one iteration does to the three line counters. *)
Lemma loopBody_counts (st : Loop) (line : jsstring) :
  let m := metrics st in
  let m' := metrics (loopBody st line) in
  let bump k := if Spec.LineKind_eqb (Spec.classify line) k then 1 else 0 in
  blankLines m' = blankLines m + bump Spec.Blank
  /\ commentLines m' = commentLines m + bump Spec.Comment
  /\ codeLines m' = codeLines m + bump Spec.Code
  /\ totalLines m' = totalLines m
  /\ filename m' = filename m.
Proof.
  unfold loopBody, Spec.classify.
  cbn [metrics blankLines commentLines codeLines totalLines filename].
  destruct (trim line) as [|c t].
  - cbn [Spec.LineKind_eqb]. repeat split; lia.
  - destruct (startsWith (c :: t) (lit "//") || startsWith (c :: t) (lit "/*")
              || startsWith (c :: t) (lit "*"));
      cbn [Spec.LineKind_eqb]; repeat split; lia.
Qed.

Lemma loop_counts (lines : list jsstring) (st : Loop) :
  let m := metrics st in
  let m' := metrics (fold_left loopBody lines st) in
  blankLines m' = blankLines m + Spec.countKind Spec.Blank lines
  /\ commentLines m' = commentLines m + Spec.countKind Spec.Comment lines
  /\ codeLines m' = codeLines m + Spec.countKind Spec.Code lines
  /\ totalLines m' = totalLines m
  /\ filename m' = filename m.
Proof.
  revert st. induction lines as [|l ls IH]; intros st.
  - cbn. repeat split; lia.
  - cbn [fold_left]. cbv zeta.
    destruct (IH (loopBody st l)) as (Hb & Hc & Hd & Ht & Hf).
    destruct (loopBody_counts st l) as (Hb' & Hc' & Hd' & Ht' & Hf').
    rewrite Hb, Hc, Hd, Ht, Hf, Hb', Hc', Hd', Ht', Hf', !countKind_cons.
    repeat split; lia.
Qed.

Lemma analyzeCode_counts (code fname : jsstring) :
  let m := analyzeCode code fname in
  let lines := splitLines code in
  totalLines m = N.of_nat (List.length lines)
  /\ blankLines m = Spec.countKind Spec.Blank lines
  /\ commentLines m = Spec.countKind Spec.Comment lines
  /\ codeLines m = Spec.countKind Spec.Code lines.
Proof.
  cbv zeta. unfold analyzeCode.
  cbn [totalLines blankLines commentLines codeLines].
  destruct (loop_counts (splitLines code)
              {| metrics := initialMetrics fname (splitLines code);
                 currentDepth := 0; maxDepth := 0; totalLength := 0 |})
    as (Hb & Hc & Hd & Ht & _).
  rewrite Hb, Hc, Hd, Ht. cbn. repeat split.
Qed.

(** Counting the matches of a one-character regex counts the character. *)
Lemma countFrom_char (c : N) (s : jsstring) (prev : option N) :
  countFrom false (Chr c) prev s 0
  = N.of_nat (List.length (filter (N.eqb c) s)).
Proof.
  revert prev. induction s as [|x s IH]; intros prev; [reflexivity|].
  cbn [countFrom execAt rmatch chrEq filter].
  destruct (c =? x).
  - cbn [List.length]. rewrite Nat.sub_succ_l, Nat.sub_diag by lia.
    cbn [pred]. rewrite IH. lia.
  - apply IH.
Qed.

Lemma matchCount_char (c : N) (s : jsstring) :
  matchCount false (Chr c) s = N.of_nat (List.length (filter (N.eqb c) s)).
Proof. apply countFrom_char. Qed.

(** The nesting depth is never negative: storing it as a counter loses
    nothing. *)
Lemma loop_maxDepth (lines : list jsstring) (st : Loop) :
  (0 <= maxDepth st)%Z -> (0 <= maxDepth (fold_left loopBody lines st))%Z.
Proof.
  revert st. induction lines as [|l ls IH]; intros st H; [exact H|].
  cbn [fold_left]. apply IH. unfold loopBody. cbn [maxDepth]. lia.
Qed.

(** [Math.round] of a quotient of counters is a counter. *)
Lemma mathRound_nonneg (a : N) (n : Z) :
  (0 < n)%Z -> (0 <= mathRound (N2Q a / inject_Z n))%Z.
Proof.
  intros Hn. unfold mathRound.
  change 0%Z with (Qfloor 0). apply Qfloor_resp_le.
  apply (Qle_trans _ (N2Q a / inject_Z n)).
  - apply Qle_shift_div_l.
    + change 0%Q with (inject_Z 0). rewrite <- Zlt_Qlt. exact Hn.
    + rewrite Qmult_0_l. unfold N2Q. change 0%Q with (inject_Z 0).
      rewrite <- Zle_Qle. lia.
  - rewrite <- (Qplus_0_r (N2Q a / inject_Z n)) at 1.
    apply Qplus_le_r. discriminate.
Qed.

(** The texts of the test suite. *)
Lemma analyzeCode_tests :
  (let m := analyzeCode Examples.fourLines (lit "test.js") in
   totalLines m = 4 /\ commentLines m = 1 /\ codeLines m = 2
   /\ blankLines m = 1 /\ avgLineLength m = 11 /\ longestLine m = 12
   /\ shortestNonEmptyLine m = Fin 10 /\ variableDeclarations m = 2)
  /\ (let m := analyzeCode Examples.nestedIfs (lit "test.js") in
      nestingDepth m = 4 /\ functionCount m = 1 /\ hasTests m = true)
  /\ (let m := analyzeCode Examples.markers (lit "test.js") in
      hackCount m = 1 /\ todoCount m = 1 /\ fixmeCount m = 1
      /\ negativeWords m = 7 /\ positiveWords m = 0).
Proof. vm_compute. repeat split. Qed.

(** C3: in the record of [analyzeCode] the code, comment and blank lines
    add up to [totalLines], the number of segments between line feeds;
    each line counts in exactly one class (trimmed empty: blank; trimmed
    text starting with [//], [/*] or [*]: comment; otherwise: code). *)
Theorem analyzeCode_line_partition (code fname : jsstring) :
  let m := analyzeCode code fname in
  let lines := splitLines code in
  codeLines m + commentLines m + blankLines m = totalLines m
  /\ totalLines m = N.of_nat (List.length lines)
  /\ totalLines m = Spec.lineFeeds code + 1
  /\ blankLines m = Spec.countKind Spec.Blank lines
  /\ commentLines m = Spec.countKind Spec.Comment lines
  /\ codeLines m = Spec.countKind Spec.Code lines.
Proof.
  cbv zeta.
  destruct (analyzeCode_counts code fname) as (Ht & Hb & Hc & Hd).
  rewrite Ht, Hb, Hc, Hd.
  repeat split.
  - apply countKind_total.
  - unfold Spec.lineFeeds. rewrite splitLines_length. lia.
Qed.

Lemma classify_blank (line : jsstring) :
  Spec.LineKind_eqb (Spec.classify line) Spec.Blank = true -> trim line = [].
Proof.
  unfold Spec.classify. destruct (trim line) as [|c t]; [reflexivity|].
  destruct (startsWith (c :: t) (lit "//") || startsWith (c :: t) (lit "/*")
            || startsWith (c :: t) (lit "*")); discriminate.
Qed.

Lemma filter_length_le_all {A : Type} (f : A -> bool) (l : list A) :
  (List.length (filter f l) <= List.length l)%nat
  /\ (List.length (filter f l) = List.length l ->
      Forall (fun x => f x = true) l).
Proof.
  induction l as [|x l [IHle IHall]]; [split; [reflexivity|constructor]|].
  cbn [filter]. destruct (f x) eqn:E; cbn [List.length]; split; try lia.
  intros H. constructor; [exact E|]. apply IHall. lia.
Qed.

(** A blank line leaves the length statistics as they are. *)
Lemma loopBody_blank (st : Loop) (line : jsstring) :
  trim line = [] ->
  longestLine (metrics (loopBody st line)) = longestLine (metrics st)
  /\ shortestNonEmptyLine (metrics (loopBody st line))
     = shortestNonEmptyLine (metrics st)
  /\ totalLength (loopBody st line) = totalLength st.
Proof.
  intros H. unfold loopBody. rewrite H.
  cbn [metrics longestLine shortestNonEmptyLine totalLength strlen
       List.length N.of_nat N.ltb N.compare].
  repeat split.
Qed.

Lemma loop_blank (lines : list jsstring) (st : Loop) :
  Forall (fun l => trim l = []) lines ->
  longestLine (metrics (fold_left loopBody lines st))
  = longestLine (metrics st)
  /\ shortestNonEmptyLine (metrics (fold_left loopBody lines st))
     = shortestNonEmptyLine (metrics st)
  /\ totalLength (fold_left loopBody lines st) = totalLength st.
Proof.
  intros H. revert st.
  induction H as [|l ls Hl _ IH]; intros st; [repeat split|].
  cbn [fold_left].
  destruct (IH (loopBody st l)) as (H1 & H2 & H3).
  destruct (loopBody_blank st l Hl) as (H1' & H2' & H3').
  rewrite H1, H2, H3. repeat split; assumption.
Qed.

(** The record of the empty text. *)
Lemma analyzeCode_empty (fname : jsstring) :
  analyzeCode [] fname =
  {| filename := fname;
     totalLines := 1; codeLines := 0; commentLines := 0; blankLines := 1;
     avgLineLength := 0; longestLine := 0; shortestNonEmptyLine := Fin 0;
     exclamationMarks := 0; questionMarks := 0;
     positiveWords := 0; negativeWords := 0; stressWords := 0;
     todoCount := 0; fixmeCount := 0; hackCount := 0;
     functionCount := 0; variableDeclarations := 0;
     nestingDepth := 0; hasTests := false |}.
Proof. reflexivity. Qed.

(** C5: [analyzeCode] returns a valid metrics record for every text: at
    least one line, the three classes adding up, a finite shortest length,
    and the degenerate values 0 for the average, longest and shortest line
    length when no line is non-blank; the empty text gives one line, blank,
    and no code line. *)
Theorem analyzeCode_total (code fname : jsstring) :
  let m := analyzeCode code fname in
  Spec.validMetrics m
  /\ (blankLines m = totalLines m ->
      avgLineLength m = 0 /\ longestLine m = 0
      /\ shortestNonEmptyLine m = Fin 0)
  /\ analyzeCode [] fname =
     {| filename := fname;
        totalLines := 1; codeLines := 0; commentLines := 0; blankLines := 1;
        avgLineLength := 0; longestLine := 0; shortestNonEmptyLine := Fin 0;
        exclamationMarks := 0; questionMarks := 0;
        positiveWords := 0; negativeWords := 0; stressWords := 0;
        todoCount := 0; fixmeCount := 0; hackCount := 0;
        functionCount := 0; variableDeclarations := 0;
        nestingDepth := 0; hasTests := false |}.
Proof.
  cbv zeta.
  assert (Hdegenerate :
    blankLines (analyzeCode code fname) = totalLines (analyzeCode code fname)
    -> avgLineLength (analyzeCode code fname) = 0
       /\ longestLine (analyzeCode code fname) = 0
       /\ shortestNonEmptyLine (analyzeCode code fname) = Fin 0).
  { destruct (analyzeCode_counts code fname) as (Ht & Hb & _).
    cbv zeta in Ht, Hb. intros Hall.
    assert (Hblank : Forall (fun l => trim l = []) (splitLines code)).
    { rewrite Hb, Ht in Hall. unfold Spec.countKind in Hall.
      apply Nat2N.inj in Hall.
      apply (proj2 (filter_length_le_all _ _)) in Hall.
      apply Forall_impl with (2 := Hall).
      intros l. apply classify_blank. }
    revert Hall. unfold analyzeCode.
    cbn [blankLines totalLines avgLineLength longestLine
         shortestNonEmptyLine].
    destruct (loop_blank (splitLines code)
                {| metrics := initialMetrics fname (splitLines code);
                   currentDepth := 0; maxDepth := 0; totalLength := 0 |}
                Hblank) as (H1 & H2 & _).
    intros Hall. rewrite Hall, Z.sub_diag, H1, H2.
    repeat split. }
  split; [|split; [exact Hdegenerate|reflexivity]].
  unfold Spec.validMetrics.
  destruct (analyzeCode_counts code fname) as (Ht & Hb & Hc & Hd).
  cbv zeta in Ht, Hb, Hc, Hd.
  split; [rewrite Ht, splitLines_length; lia|].
  split; [rewrite Ht, Hb, Hc, Hd; apply countKind_total|].
  split; [|exact Hdegenerate].
  clear Hdegenerate. unfold analyzeCode. cbn [shortestNonEmptyLine].
  destruct (shortestNonEmptyLine _); intros H; discriminate H.
Qed.

Lemma analyzeCode_total_witness :
  blankLines (analyzeCode Examples.blankText (lit "blank.js"))
  = totalLines (analyzeCode Examples.blankText (lit "blank.js"))
  /\ totalLines (analyzeCode Examples.blankText (lit "blank.js")) = 2
  /\ avgLineLength (analyzeCode Examples.blankText (lit "blank.js")) = 0
  /\ longestLine (analyzeCode Examples.blankText (lit "blank.js")) = 0
  /\ shortestNonEmptyLine (analyzeCode Examples.blankText (lit "blank.js"))
     = Fin 0.
Proof.
  split; [reflexivity|]. split; [reflexivity|].
  apply (proj1 (proj2 (analyzeCode_total Examples.blankText
                         (lit "blank.js")))).
  reflexivity.
Defined.

(** C9: the test heuristic has no word boundary on its left: the line
    [edit(x);] holds none of [describe], [it], [test], [expect], [assert]
    as a standalone word before a parenthesis (its only [it] ends [edit]),
    and [hasTests] is true for it all the same. *)
Theorem hasTests_no_left_boundary (fname : jsstring) :
  hasTests (analyzeCode (lit "edit(x);") fname) = true
  /\ test false Spec.standaloneTestsRe (lit "edit(x);") = false
  /\ includes (lit "edit(x);") (lit "edit(") = true
  /\ matchCount false (word (lit "it")) (lit "edit(x);") = 1.
Proof. repeat split; vm_compute; reflexivity. Qed.

(** *** Dictionaries in insertion order *)

Section DictFacts.
Context {K V : Type} (eqb : K -> K -> bool).
Hypothesis eqb_eq : forall a b, eqb a b = true <-> a = b.

Lemma eqb_refl' (a : K) : eqb a a = true.
Proof. apply eqb_eq. reflexivity. Qed.

Lemma eqb_neq (a b : K) : a <> b -> eqb a b = false.
Proof.
  intros H. destruct (eqb a b) eqn:E; [|reflexivity].
  apply eqb_eq in E. contradiction.
Qed.

Lemma objGet_objSet (o : list (K * V)) (k m : K) (v : V) :
  objGet eqb (objSet eqb o k v) m
  = if eqb m k then Some v else objGet eqb o m.
Proof.
  induction o as [|[k' v'] o IH]; cbn [objSet objGet].
  - reflexivity.
  - destruct (eqb k k') eqn:Ek; cbn [objGet].
    + apply eqb_eq in Ek. subst k'.
      destruct (eqb m k); reflexivity.
    + destruct (eqb m k') eqn:Em.
      * apply eqb_eq in Em. subst k'.
        destruct (eqb m k) eqn:Emk; [|reflexivity].
        apply eqb_eq in Emk. subst m.
        rewrite eqb_refl' in Ek. discriminate.
      * exact IH.
Qed.

Lemma objGet_None (o : list (K * V)) (k : K) :
  objGet eqb o k = None <-> ~ In k (map fst o).
Proof.
  induction o as [|[k' v'] o IH]; cbn [objGet map fst In].
  - tauto.
  - destruct (eqb k k') eqn:E.
    + apply eqb_eq in E. subst. split; [discriminate|]. tauto.
    + rewrite IH. split; [|tauto].
      intros H [Heq|Hin]; [|tauto].
      subst. rewrite eqb_refl' in E. discriminate.
Qed.

Lemma objGet_In (o : list (K * V)) (k : K) (v : V) :
  objGet eqb o k = Some v -> In (k, v) o.
Proof.
  induction o as [|[k' v'] o IH]; cbn [objGet In]; [discriminate|].
  destruct (eqb k k') eqn:E.
  - apply eqb_eq in E. intros [= ->]. subst. left. reflexivity.
  - intros H. right. exact (IH H).
Qed.

Lemma In_objGet (o : list (K * V)) (k : K) (v : V) :
  NoDup (map fst o) -> In (k, v) o -> objGet eqb o k = Some v.
Proof.
  induction o as [|[k' v'] o IH]; cbn [objGet In map fst]; [tauto|].
  intros Hnd [Heq|Hin].
  - injection Heq as -> ->. rewrite eqb_refl'. reflexivity.
  - inversion Hnd as [|? ? Hnot Hnd']; subst.
    destruct (eqb k k') eqn:E.
    + apply eqb_eq in E. subst. exfalso. apply Hnot.
      apply (in_map fst) in Hin. exact Hin.
    + exact (IH Hnd' Hin).
Qed.

(** Setting a key keeps the order of the keys; a new key goes last. *)
Lemma keys_objSet (o : list (K * V)) (k : K) (v : V) :
  map fst (objSet eqb o k v)
  = match objGet eqb o k with
    | Some _ => map fst o
    | None => map fst o ++ [k]
    end.
Proof.
  induction o as [|[k' v'] o IH]; cbn [objSet objGet map fst app].
  - reflexivity.
  - destruct (eqb k k') eqn:E; cbn [map fst]; [reflexivity|].
    rewrite IH. destruct (objGet eqb o k); reflexivity.
Qed.
End DictFacts.

Lemma Mood_eqb_eq (a b : Mood) : Mood_eqb a b = true <-> a = b.
Proof. destruct a, b; cbn; split; congruence. Qed.

(** *** The stable sort *)

Section SortFacts.
Context {A : Type} (key : A -> Z).

(** Sorting by descending [key], the comparator [(a, b) => key b - key a]:
    the first element after sorting is the first of the array among
    those of greatest key. *)
Lemma arraySort_head (l : list A) :
  l <> [] ->
  exists e rest l1 l2,
    arraySort (fun a b => (key b - key a)%Z) l = e :: rest
    /\ l = l1 ++ e :: l2
    /\ (forall x, In x l1 -> (key x < key e)%Z)
    /\ (forall x, In x l2 -> (key x <= key e)%Z).
Proof.
  induction l as [|x l IH]; [congruence|]. intros _.
  destruct l as [|z l].
  - exists x, [], [], []. cbn. repeat split; intros ? [].
  - destruct IH as (e & rest & l1 & l2 & Hs & Hl & H1 & H2); [congruence|].
    change (arraySort (fun a b => (key b - key a)%Z) (x :: z :: l))
      with (sortInsert (fun a b => (key b - key a)%Z) x
              (arraySort (fun a b => (key b - key a)%Z) (z :: l))).
    rewrite Hs. cbn [sortInsert].
    destruct (Z.leb_spec (key e - key x) 0) as [Hle|Hgt].
    + exists x, (e :: rest), [], (z :: l).
      repeat split; [intros ? []|].
      intros y Hy. rewrite Hl in Hy.
      apply in_app_or in Hy. destruct Hy as [Hy|[<-|Hy]].
      * specialize (H1 y Hy). lia.
      * lia.
      * specialize (H2 y Hy). lia.
    + exists e, (sortInsert (fun a b => (key b - key a)%Z) x rest),
        (x :: l1), l2.
      repeat split.
      * rewrite Hl. reflexivity.
      * intros y [<-|Hy]; [lia|exact (H1 y Hy)].
      * exact H2.
Qed.
End SortFacts.

(** *** The aggregate reduction *)

Lemma orElse_zero (c : N) : orElse c 0 = c.
Proof. unfold orElse. destruct (N.eqb_spec c 0); congruence. Qed.

Lemma occurrences_snoc (m : Mood) (rs : list Cli.FileResult)
    (r : Cli.FileResult) :
  Spec.occurrences m (rs ++ [r])
  = Spec.occurrences m rs + (if Mood_eqb (Spec.moodOf r) m then 1 else 0).
Proof.
  unfold Spec.occurrences. rewrite filter_app, length_app. cbn [filter].
  destruct (Mood_eqb (Spec.moodOf r) m); cbn [List.length]; lia.
Qed.

Lemma occurrences_In (x : Cli.FileResult) (rs : list Cli.FileResult) :
  In x rs -> Spec.occurrences (Spec.moodOf x) rs <> 0.
Proof.
  intros H. unfold Spec.occurrences.
  assert (Hin : In x (filter (fun r => Mood_eqb (Spec.moodOf r)
                                         (Spec.moodOf x)) rs)).
  { apply filter_In. split; [exact H|]. apply Mood_eqb_eq. reflexivity. }
  destruct (filter _ rs); [destruct Hin|]. cbn [List.length]. lia.
Qed.

(** The tally after the loop: every mood is stored with the number of
    results that carry it, and the keys stand in the order in which the
    moods were first met. *)
Lemma tally_invariant (rs : list Cli.FileResult) :
  let t := Cli.acc_moodCounts (fold_left Cli.loopBody rs Cli.initialAcc) in
  (forall m, objGet Mood_eqb t m
             = if Spec.occurrences m rs =? 0 then None
               else Some (Spec.occurrences m rs))
  /\ NoDup (map fst t)
  /\ (forall k1 d k2, map fst t = k1 ++ d :: k2 ->
      exists pre r post,
        rs = pre ++ r :: post /\ Spec.moodOf r = d
        /\ forall x, In x pre -> In (Spec.moodOf x) k1).
Proof.
  induction rs as [|r rs IH] using rev_ind; cbv zeta.
  - cbn. split; [reflexivity|]. split; [constructor|].
    intros k1 d k2 H. destruct (app_cons_not_nil _ _ _ H).
  - rewrite fold_left_app. cbn [fold_left].
    set (acc := fold_left Cli.loopBody rs Cli.initialAcc) in *.
    cbv zeta in IH. destruct IH as (HG & HK & HO).
    unfold Cli.loopBody. cbn [Cli.acc_moodCounts].
    fold (Spec.moodOf r).
    set (t := Cli.acc_moodCounts acc) in *.
    assert (Hv : match objGet Mood_eqb t (Spec.moodOf r) with
                 | Some c => orElse c 0
                 | None => 0
                 end = Spec.occurrences (Spec.moodOf r) rs).
    { rewrite HG. destruct (N.eqb_spec (Spec.occurrences (Spec.moodOf r) rs) 0)
        as [E|E]; [congruence|apply orElse_zero]. }
    rewrite Hv. split; [|split].
    + intros m. rewrite (objGet_objSet Mood_eqb Mood_eqb_eq), HG.
      rewrite occurrences_snoc.
      destruct (Mood_eqb m (Spec.moodOf r)) eqn:E.
      * apply Mood_eqb_eq in E. subst m.
        rewrite (proj2 (Mood_eqb_eq _ _) eq_refl).
        destruct (N.eqb_spec (Spec.occurrences (Spec.moodOf r) rs + 1) 0);
          [lia|reflexivity].
      * destruct (Mood_eqb (Spec.moodOf r) m) eqn:E'.
        { apply Mood_eqb_eq in E'. subst m.
          rewrite (proj2 (Mood_eqb_eq _ _) eq_refl) in E. discriminate. }
        rewrite N.add_0_r. reflexivity.
    + rewrite keys_objSet.
      destruct (objGet Mood_eqb t (Spec.moodOf r)) eqn:E; [exact HK|].
      apply NoDup_app; [exact HK|repeat constructor; intros []|].
      intros a Ha [<-|[]].
      apply (objGet_None Mood_eqb Mood_eqb_eq) in E. contradiction.
    + intros k1 d k2. rewrite keys_objSet.
      destruct (objGet Mood_eqb t (Spec.moodOf r)) eqn:E.
      * intros H. destruct (HO _ _ _ H) as (pre & r0 & post & -> & Hd & Hpre).
        exists pre, r0, (post ++ [r]). rewrite <- app_assoc.
        repeat split; assumption.
      * intros H. destruct k2 as [|z k2] using rev_ind.
        { apply app_inj_tail in H. destruct H as [Hk Hd].
          exists rs, r, []. repeat split; [exact Hd|].
          intros x Hx. rewrite <- Hk.
          pose proof (occurrences_In x rs Hx) as Hocc.
          specialize (HG (Spec.moodOf x)).
          destruct (N.eqb_spec (Spec.occurrences (Spec.moodOf x) rs) 0);
            [contradiction|].
          apply (objGet_In Mood_eqb Mood_eqb_eq) in HG.
          apply (in_map fst) in HG. exact HG. }
        { clear IHk2.
          change (k1 ++ d :: k2 ++ [z]) with (k1 ++ (d :: k2) ++ [z]) in H.
          rewrite app_assoc in H. apply app_inj_tail in H.
          destruct H as [Hk _].
          destruct (HO _ _ _ Hk) as (pre & r0 & post & -> & Hd & Hpre).
          exists pre, r0, (post ++ [r]). rewrite <- app_assoc.
          repeat split; assumption. }
Qed.

(** The totals and the score sum after the loop. *)
Lemma loop_totals (rs : list Cli.FileResult) (acc : Cli.Acc) :
  let a := fold_left Cli.loopBody rs acc in
  let t := Cli.acc_totals acc in
  let t' := Cli.acc_totals a in
  Cli.totalLines t' = Cli.totalLines t + Spec.sumOf totalLines rs
  /\ Cli.codeLines t' = Cli.codeLines t + Spec.sumOf codeLines rs
  /\ Cli.commentLines t' = Cli.commentLines t + Spec.sumOf commentLines rs
  /\ Cli.positiveWords t' = Cli.positiveWords t + Spec.sumOf positiveWords rs
  /\ Cli.negativeWords t' = Cli.negativeWords t + Spec.sumOf negativeWords rs
  /\ Cli.stressWords t' = Cli.stressWords t + Spec.sumOf stressWords rs
  /\ Cli.todoCount t' = Cli.todoCount t + Spec.sumOf todoCount rs
  /\ Cli.fixmeCount t' = Cli.fixmeCount t + Spec.sumOf fixmeCount rs
  /\ Cli.hackCount t' = Cli.hackCount t + Spec.sumOf hackCount rs
  /\ Cli.functionCount t' = Cli.functionCount t + Spec.sumOf functionCount rs
  /\ Cli.acc_totalScore a = (Cli.acc_totalScore acc + Spec.scoreSum rs)%Z.
Proof.
  revert acc. induction rs as [|r rs IH]; intros acc; cbv zeta.
  - cbn. repeat split; lia.
  - cbn [fold_left Spec.sumOf Spec.scoreSum fold_right].
    destruct (IH (Cli.loopBody acc r))
      as (H1 & H2 & H3 & H4 & H5 & H6 & H7 & H8 & H9 & H10 & H11).
    rewrite H1, H2, H3, H4, H5, H6, H7, H8, H9, H10, H11.
    unfold Cli.loopBody.
    cbn [Cli.acc_totals Cli.acc_totalScore Cli.totalLines Cli.codeLines
         Cli.commentLines Cli.positiveWords Cli.negativeWords
         Cli.stressWords Cli.todoCount Cli.fixmeCount Cli.hackCount
         Cli.functionCount].
    fold (Spec.sumOf totalLines rs) (Spec.sumOf codeLines rs)
      (Spec.sumOf commentLines rs) (Spec.sumOf positiveWords rs)
      (Spec.sumOf negativeWords rs) (Spec.sumOf stressWords rs)
      (Spec.sumOf todoCount rs) (Spec.sumOf fixmeCount rs)
      (Spec.sumOf hackCount rs) (Spec.sumOf functionCount rs)
      (Spec.scoreSum rs).
    repeat split; lia.
Qed.

(** [Math.round] of a quotient of integers is the rounding of the
    specification: halves go up. *)
Lemma mathRound_quotient (a : Z) (n : N) :
  n <> 0 ->
  mathRound (inject_Z a / N2Q n) = Spec.roundHalfUp a (Z.of_N n).
Proof.
  intros Hn. unfold mathRound, Spec.roundHalfUp, N2Q.
  rewrite Zdiv_Qdiv. apply Qfloor_comp.
  rewrite inject_Z_plus, !inject_Z_mult.
  assert (Hnz : ~ (inject_Z (Z.of_N n) == 0)%Q).
  { intros H. apply (inject_Z_injective (Z.of_N n) 0) in H. lia. }
  change (inject_Z 2) with (2 # 1).
  field. exact Hnz.
Qed.

Lemma tally_entry (rs : list Cli.FileResult) (m : Mood) (c : N) :
  In (m, c) (Cli.acc_moodCounts (fold_left Cli.loopBody rs Cli.initialAcc)) ->
  c = Spec.occurrences m rs.
Proof.
  intros H. destruct (tally_invariant rs) as (HG & HK & _).
  cbv zeta in HG, HK.
  apply (In_objGet Mood_eqb Mood_eqb_eq _ _ _ HK) in H.
  rewrite HG in H.
  destruct (Spec.occurrences m rs =? 0); congruence.
Qed.

(** [calculateAggregateMood] on a non-empty list, in the terms of the
    specification. *)
Lemma calculateAggregateMood_nonempty (rs : list Cli.FileResult) :
  rs <> [] ->
  exists agg,
    Cli.calculateAggregateMood rs = Some agg
    /\ Cli.fileCount agg = N.of_nat (List.length rs)
    /\ Cli.totals agg
       = Cli.acc_totals (fold_left Cli.loopBody rs Cli.initialAcc)
    /\ Cli.avgScore agg
       = Some (Spec.roundHalfUp (Spec.scoreSum rs)
                 (Z.of_nat (List.length rs)))
    /\ Cli.moodCounts agg
       = Cli.acc_moodCounts (fold_left Cli.loopBody rs Cli.initialAcc)
    /\ arraySort Cli.byCountDesc (Cli.moodCounts agg) <> []
    /\ Spec.firstMostFrequent (Cli.dominantMood agg) rs.
Proof.
  intros Hne. unfold Cli.calculateAggregateMood.
  destruct (tally_invariant rs) as (HG & HK & HO). cbv zeta in HG, HK, HO.
  pose proof (tally_entry rs) as HE.
  destruct (loop_totals rs Cli.initialAcc) as (_ & _ & _ & _ & _ & _ & _ & _
    & _ & _ & Hscore).
  cbn [Cli.initialAcc Cli.acc_totalScore] in Hscore.
  set (acc := fold_left Cli.loopBody rs Cli.initialAcc) in *.
  set (t := Cli.acc_moodCounts acc) in *.
  assert (Ht : t <> []).
  { destruct rs as [|r rs']; [congruence|].
    pose proof (occurrences_In r (r :: rs') (or_introl eq_refl)) as Hocc.
    specialize (HG (Spec.moodOf r)). intros Hnil. rewrite Hnil in HG.
    destruct (Spec.occurrences (Spec.moodOf r) (r :: rs') =? 0) eqn:E;
      [apply N.eqb_eq in E; contradiction|discriminate]. }
  destruct (arraySort_head (fun e : Mood * N => Z.of_N (snd e)) t Ht)
    as (e & rest & t1 & t2 & Hs & Hsplit & Hlt & Hle).
  change (arraySort Cli.byCountDesc t = e :: rest) in Hs.
  rewrite Hs.
  eexists. split; [reflexivity|].
  cbn [Cli.fileCount Cli.totals Cli.avgScore Cli.moodCounts
       Cli.dominantMood].
  split; [reflexivity|]. split; [reflexivity|].
  split.
  { unfold Cli.divide.
    destruct (N.eqb_spec (N.of_nat (List.length rs)) 0) as [E|E].
    - destruct rs; [congruence|discriminate E].
    - cbn [option_map]. rewrite mathRound_quotient by exact E.
      rewrite Hscore, nat_N_Z. reflexivity. }
  split; [reflexivity|]. split; [rewrite Hs; discriminate|].
  destruct e as [d c]. cbn [fst].
  assert (Hc : c = Spec.occurrences d rs).
  { apply HE. rewrite Hsplit. apply in_or_app. right. left. reflexivity. }
  split.
  - intros m.
    destruct (N.eqb_spec (Spec.occurrences m rs) 0) as [E|E]; [lia|].
    specialize (HG m). apply N.eqb_neq in E. rewrite E in HG.
    apply (objGet_In Mood_eqb Mood_eqb_eq) in HG.
    rewrite Hsplit in HG. apply in_app_or in HG.
    destruct HG as [Hin|[Heq|Hin]].
    + specialize (Hlt _ Hin). cbn [snd] in Hlt. lia.
    + injection Heq as -> ->. lia.
    + specialize (Hle _ Hin). cbn [snd] in Hle. lia.
  - assert (Hkeys : map fst t = map fst t1 ++ d :: map fst t2).
    { rewrite Hsplit, map_app. reflexivity. }
    destruct (HO _ _ _ Hkeys) as (pre & r & post & Hrs & Hd & Hpre).
    exists pre, r, post. repeat split; [exact Hrs|exact Hd|].
    intros x Hx. specialize (Hpre x Hx).
    apply in_map_iff in Hpre. destruct Hpre as ([m' c'] & Hm & Hin).
    cbn [fst] in Hm. subst m'.
    specialize (Hlt _ Hin). cbn [snd] in Hlt.
    assert (Hc' : c' = Spec.occurrences (Spec.moodOf x) rs).
    { apply HE. rewrite Hsplit. apply in_or_app. left. exact Hin. }
    lia.
Qed.

(** C7, as stated, fails for the metric fields that the totals leave out:
    the analyses of the texts [x!] and [x!!] differ in [exclamationMarks]
    and have the same aggregate, so no part of the aggregate is the sum of
    [exclamationMarks], even over results that all come from analysing a
    text. *)
Lemma aggregate_omits_exclamationMarks :
  ~ (exists total : Cli.Aggregate -> N,
       forall rs agg,
         (forall r, In r rs ->
            exists code fname, r = Examples.analysisOf code fname) ->
         rs <> [] ->
         Cli.calculateAggregateMood rs = Some agg ->
         total agg = Spec.sumOf exclamationMarks rs).
Proof.
  intros [total H].
  assert (Heq : Cli.calculateAggregateMood [Examples.oneMark]
                = Cli.calculateAggregateMood [Examples.twoMarks])
    by (vm_compute; reflexivity).
  assert (Hsum : Spec.sumOf exclamationMarks [Examples.oneMark] = 1
                 /\ Spec.sumOf exclamationMarks [Examples.twoMarks] = 2)
    by (split; vm_compute; reflexivity).
  destruct Hsum as [Hone Htwo].
  destruct (Cli.calculateAggregateMood [Examples.oneMark])
    as [agg|] eqn:E1; [|vm_compute in E1; discriminate E1].
  assert (H1 : total agg = Spec.sumOf exclamationMarks [Examples.oneMark]).
  { apply H; [|discriminate|exact E1].
    intros r [<-|[]]. exists (lit "x!"), (lit "a.js"). reflexivity. }
  assert (H2 : total agg = Spec.sumOf exclamationMarks [Examples.twoMarks]).
  { apply H; [|discriminate|exact (eq_sym Heq)].
    intros r [<-|[]]. exists (lit "x!!"), (lit "a.js"). reflexivity. }
  rewrite Hone in H1. rewrite Htwo in H2. rewrite H1 in H2. discriminate H2.
Qed.

(** C7, amended: for a non-empty list [calculateAggregateMood] sums the ten
    fields of the totals (total, code and comment lines, positive, negative
    and stress words, TODOs, FIXMEs, hacks, functions) over the results,
    reports the average score rounded half-up, tallies the moods, and
    reports as dominant the mood of highest count, the first met among
    those tied. *)
Theorem calculateAggregateMood_reduction (rs : list Cli.FileResult) :
  rs <> [] ->
  exists agg,
    Cli.calculateAggregateMood rs = Some agg
    /\ Cli.fileCount agg = N.of_nat (List.length rs)
    /\ Cli.totalLines (Cli.totals agg) = Spec.sumOf totalLines rs
    /\ Cli.codeLines (Cli.totals agg) = Spec.sumOf codeLines rs
    /\ Cli.commentLines (Cli.totals agg) = Spec.sumOf commentLines rs
    /\ Cli.positiveWords (Cli.totals agg) = Spec.sumOf positiveWords rs
    /\ Cli.negativeWords (Cli.totals agg) = Spec.sumOf negativeWords rs
    /\ Cli.stressWords (Cli.totals agg) = Spec.sumOf stressWords rs
    /\ Cli.todoCount (Cli.totals agg) = Spec.sumOf todoCount rs
    /\ Cli.fixmeCount (Cli.totals agg) = Spec.sumOf fixmeCount rs
    /\ Cli.hackCount (Cli.totals agg) = Spec.sumOf hackCount rs
    /\ Cli.functionCount (Cli.totals agg) = Spec.sumOf functionCount rs
    /\ Cli.avgScore agg
       = Some (Spec.roundHalfUp (Spec.scoreSum rs)
                 (Z.of_nat (List.length rs)))
    /\ (forall m, objGet Mood_eqb (Cli.moodCounts agg) m
                  = if Spec.occurrences m rs =? 0 then None
                    else Some (Spec.occurrences m rs))
    /\ Spec.firstMostFrequent (Cli.dominantMood agg) rs.
Proof.
  intros Hne.
  destruct (calculateAggregateMood_nonempty rs Hne)
    as (agg & Hcalc & Hcount & Htot & Havg & Htally & _ & Hdom).
  destruct (loop_totals rs Cli.initialAcc)
    as (H1 & H2 & H3 & H4 & H5 & H6 & H7 & H8 & H9 & H10 & _).
  cbv zeta in H1, H2, H3, H4, H5, H6, H7, H8, H9, H10.
  rewrite <- Htot in H1, H2, H3, H4, H5, H6, H7, H8, H9, H10.
  destruct (tally_invariant rs) as (HG & _). cbv zeta in HG.
  rewrite <- Htally in HG.
  exists agg.
  repeat (split; [first [assumption | reflexivity]|]).
  exact Hdom.
Qed.

Lemma calculateAggregateMood_reduction_witness :
  exists agg,
    Cli.calculateAggregateMood Examples.twoFiles = Some agg
    /\ Cli.totalLines (Cli.totals agg) = 20
    /\ Cli.functionCount (Cli.totals agg) = 2
    /\ Cli.avgScore agg = Some 53%Z
    /\ Spec.firstMostFrequent (Cli.dominantMood agg) Examples.twoFiles.
Proof.
  destruct (calculateAggregateMood_reduction Examples.twoFiles
              ltac:(discriminate))
    as (agg & Hcalc & _ & Hlines & _ & _ & _ & _ & _ & _ & _ & _ & Hfun
        & Havg & _ & Hdom).
  exists agg.
  split; [exact Hcalc|]. split; [exact Hlines|]. split; [exact Hfun|].
  split; [exact Havg|exact Hdom].
Defined.

(** The aggregate of the two files of the test suite: scores 70 and 35
    average to 52.5, reported as 53; the two moods tie and the first met
    is dominant. *)
Lemma calculateAggregateMood_twoFiles :
  option_map (fun agg => (Cli.avgScore agg, Cli.dominantMood agg,
                          Cli.moodCounts agg))
    (Cli.calculateAggregateMood Examples.twoFiles)
  = Some (Some 53%Z, happy, [(happy, 1); (stressed, 1)]).
Proof. reflexivity. Qed.

(** C10: [calculateAggregateMood] yields a result exactly for non-empty
    lists: then the sorted tally has a first entry and the average divides
    by a positive length; for the empty list the division has no finite
    value and indexing the sorted tally fails. *)
Theorem calculateAggregateMood_defined (rs : list Cli.FileResult) :
  (rs <> [] ->
   exists agg,
     Cli.calculateAggregateMood rs = Some agg
     /\ arraySort Cli.byCountDesc (Cli.moodCounts agg) <> []
     /\ 0 < Cli.fileCount agg
     /\ exists z, Cli.avgScore agg = Some z)
  /\ (rs = [] ->
      Cli.calculateAggregateMood rs = None
      /\ Cli.divide (Spec.scoreSum rs) (N.of_nat (List.length rs)) = None).
Proof.
  split.
  - intros Hne.
    destruct (calculateAggregateMood_nonempty rs Hne)
      as (agg & Hcalc & Hcount & _ & Havg & _ & Hsorted & _).
    exists agg. split; [exact Hcalc|]. split; [exact Hsorted|].
    split; [|eexists; exact Havg].
    rewrite Hcount. destruct rs; [congruence|cbn [List.length]; lia].
  - intros ->. split; reflexivity.
Qed.

Lemma calculateAggregateMood_defined_witness :
  (exists agg,
     Cli.calculateAggregateMood Examples.twoFiles = Some agg
     /\ arraySort Cli.byCountDesc (Cli.moodCounts agg) <> []
     /\ 0 < Cli.fileCount agg
     /\ exists z, Cli.avgScore agg = Some z)
  /\ Cli.calculateAggregateMood [] = None.
Proof.
  split.
  - apply (proj1 (calculateAggregateMood_defined Examples.twoFiles)).
    discriminate.
  - apply (proj2 (calculateAggregateMood_defined []) eq_refl).
Defined.
